(** * Handcrafted-DP: the training driver [cnns.py]

    A shallow embedding of [save_checkpoint], [main] and the command line
    of [cnns.py].  The driver is control flow around collaborators that
    live in other modules ([train_utils], [data], [models], [dp_utils],
    [opacus], [torch], [wandb], [pathlib]): those are the fields of the
    classes [Carriers] and [Collaborators], and every statement below
    holds for all of them. *)

From Stdlib Require Import ZArith List Bool Lia Ascii String.
From stdpp Require Import gmap strings list pretty.

Local Open Scope Z_scope.

(** ** Values handed around by the driver *)

(** The types of the objects [main] receives from its collaborators and
    never looks inside. *)
Class Carriers := {
  (** Python numbers ([float], or [int] where a default is used) that
      the driver compares, formats or passes on. *)
  num : Type;
  (** Renyi-divergence vectors, one entry per order. *)
  rdp : Type;
  device_t : Type;
  (** The pair [(train_data, test_data)] of [get_data]. *)
  dataset_t : Type;
  scattering_t : Type;
  bn_stats_t : Type;
  orders_t : Type;
  model_state_t : Type;
  optim_state_t : Type;
  (** [pathlib.Path] values. *)
  path : Type;
  (** The torch side of a run once it is assembled: model, optimizer,
      attached privacy engine, the two loaders and their generators. *)
  W : Type
}.

Section DataModel.
Context {K : Carriers}.

(** The keyword arguments of [main] (lines 25-30). *)
Record config := {
  dataset : option string;
  seed : Z;
  augment : bool;
  use_scattering : bool;
  size_arg : option string;
  batch_size : Z;
  mini_batch_size : Z;
  sample_batches : bool;
  lr : num;
  optim : string;
  momentum : num;
  nesterov : bool;
  noise_multiplier : num;
  max_grad_norm : num;
  epochs : Z;
  input_norm : option string;
  num_groups : option Z;
  bn_noise_multiplier : option num;
  max_epsilon : option num;
  out_dir : string;
  early_stop : bool;
  device : string
}.

(** The dictionary passed to [save_checkpoint] (lines 198-205). *)
Record checkpoint := {
  ck_epoch : Z;
  ck_model : string;
  ck_state_dict : model_state_t;
  ck_test_acc : num;
  ck_best_acc : num;
  ck_optimizer : optim_state_t
}.

(** The dictionary passed to [run.log] (lines 177-184). *)
Record log_record := {
  lg_epoch : Z;
  lg_train_loss : num;
  lg_train_acc : num;
  lg_test_loss : num;
  lg_test_acc : num;
  lg_epsilon : option num
}.

(** [run_params] and its ["config"] entry (lines 42-56). *)
Record wandb_config := {
  wc_name : string;
  wc_out_path : path;
  wc_dataset : string;
  wc_seed : Z;
  wc_sigma : num;
  wc_epochs : Z;
  wc_batch_size : Z;
  wc_lr : num
}.

Record wandb_params := {
  wp_project : string;
  wp_job_type : string;
  wp_group : string;
  wp_config : wandb_config;
  wp_name : string
}.

(** What [main] asks torch to build, as data: the calls of lines 89-152
    with the arguments the source gives them.  [DataLoader] is torch's
    ([drop_last] is [False] where line 89 and line 95 leave it out);
    [ScatteredLoader] is [get_scattered_loader], whose [drop_last] and
    [sample_batches] are [None] where the call does not pass them. *)
Inductive split := TrainSplit | TestSplit.

Inductive loader :=
| DataLoader (data : dataset_t) (part : split) (batch : Z)
             (shuffle drop_last : bool)
| ScatteredLoader (inner : loader) (scattering : option scattering_t)
                  (dev : device_t) (drop_last sample : option bool).

Inductive norm_layer :=
| NormBN (stats : bn_stats_t)
| NormPlain (kind : option string) (groups : option Z).

Inductive model :=
| CNNS (name : option string) (channels : Z) (norm : norm_layer)
       (size : option string)
| Sequential (scattering : option scattering_t) (inner : model).

Inductive optimizer :=
| SGD (rate mom : num) (nest : bool)
| Adam (rate : num).

Record engine := {
  eng_sample_rate : num;
  eng_alphas : orders_t;
  eng_noise_multiplier : num;
  eng_max_grad_norm : num
}.

(** [rdp_norm] is the integer [0] of line 102 or the vector returned by
    [scatter_normalization]. *)
Inductive rdp_norm_value :=
| NormInt (z : Z)
| NormRdp (r : rdp).

(** Exceptions the driver itself can raise, and the three ways it
    returns. *)
Inductive pyexn :=
| AssertionError
| ZeroDivisionError
| OverflowError
| FileNotFoundError.

Inductive return_site :=
| BudgetExhausted   (* line 172 *)
| Plateau           (* line 195 *)
| EndOfMain.        (* the loop ran out of epochs *)

Inductive outcome :=
| Returned (site : return_site)
| Raised (e : pyexn).

(** Effects on the outside world, in program order: the three seedings
    of lines 32-34, the creation of [run_dir] when it is missing,
    [wandb.init], the call of [scatter_normalization] with the creation
    of its cache directory, the prints, the calls of [train] and [test],
    [run.log] and the calls of [save_checkpoint]. *)
Inductive event :=
| EvSeed (s : Z)
| EvEnsureDir (p : path)
| EvWandbInit (params : wandb_params)
| EvScatterNormalization (save_dir : string)
| EvPrintNumParams (n : Z)
| EvPrintEpoch (epoch : Z)
| EvTrain (n_acc_steps : Z)
| EvTest
| EvPrintEpsilon (epsilon epsilon2 : num)
| EvLog (r : log_record)
| EvPrintPlateau
| EvSaveCheckpoint (state : checkpoint) (is_best : bool) (filename : path).

End DataModel.

(** The functions [main] calls. *)
Class Collaborators {K : Carriers} := {
  (** Python arithmetic on numbers. *)
  num_of_int : Z -> num;
  num_gt : num -> num -> bool;
  num_ge : num -> num -> bool;
  int_truediv : Z -> Z -> num;
  (** Whether the quotient of two integers is too large for a float:
      [a / b] then raises [OverflowError]. *)
  truediv_overflows : Z -> Z -> bool;
  num_str : num -> string;
  (** The float literal [m * 10^e], and the conversions [int(s)] and
      [float(s)] of a command-line word. *)
  num_of_decimal : Z -> Z -> num;
  int_of_str : string -> option Z;
  float_of_str : string -> option num;
  (** [pathlib]. *)
  Path : string -> path;
  path_div : path -> string -> path;
  path_str : path -> string;
  (** [train_utils], [data], [models]. *)
  get_device : string -> device_t;
  get_data : option string -> bool -> dataset_t;
  train_len : dataset_t -> Z;
  train_ndim : dataset_t -> Z;
  get_scatter_transform : option string -> scattering_t * Z;
  get_num_params : model -> Z;
  assemble : device_t -> model -> loader -> loader -> optimizer -> engine -> W;
  train : W -> Z -> W * (num * num);
  test : W -> W * (num * num);
  model_state_dict : W -> model_state_t;
  optimizer_state_dict : W -> optim_state_t;
  (** The attributes of the attached [PrivacyEngine]. *)
  engine_sample_rate : W -> num;
  engine_noise_multiplier : W -> num;
  engine_steps : W -> Z;
  (** [dp_utils]. *)
  ORDERS : orders_t;
  get_renyi_divergence : num -> num -> rdp;
  get_privacy_spent : rdp -> num * num;
  scatter_normalization :
    loader -> option scattering_t -> Z -> device_t -> Z -> Z ->
    option num -> orders_t -> string -> bn_stats_t * rdp;
  (** Elementwise arithmetic of the vector library. *)
  rdp_mul_int : rdp -> Z -> rdp;
  rdp_add : rdp -> rdp -> rdp;
  int_add_rdp : Z -> rdp -> rdp
}.

(** ** The driver *)

Section Driver.
Context {K : Carriers} {C : Collaborators}.

(** *** [save_checkpoint] (lines 19-22)

    Checkpoint files are the only files the driver writes; the store maps
    a file name to the state last written there.  [main] always passes
    [filename], a [pathlib.Path]; [f"{filename}_best"] is its string
    followed by [_best]. *)

(** [torch.save(state, filename)]. *)
Definition torch_save (state : checkpoint) (filename : string)
    (fs : gmap string checkpoint) : gmap string checkpoint :=
  <[filename := state]> fs.

(** [shutil.copyfile(src, dst)]: fails when [src] does not exist.  (It
    also fails when [src] and [dst] are one file; the two names of
    [save_checkpoint] differ.) *)
Definition copyfile (src dst : string)
    (fs : gmap string checkpoint) : option (gmap string checkpoint) :=
  match fs !! src with
  | Some c => Some (<[dst := c]> fs)
  | None => None
  end.

Definition save_checkpoint (state : checkpoint) (is_best : bool)
    (filename : path) (fs : gmap string checkpoint)
    : option (gmap string checkpoint) :=
  let fs1 := torch_save state (path_str filename) fs in
  if is_best
  then copyfile (path_str filename) (path_str filename +:+ "_best") fs1
  else Some fs1.

(** *** Names and run parameters (lines 36-57) *)

Definition run_name (cfg : config) : string :=
  "cifar10_scatternet_" +:+ num_str (noise_multiplier cfg).

Definition run_dir (cfg : config) : path :=
  path_div (Path (out_dir cfg)) (run_name cfg).

Definition checkpoint_filename (cfg : config) : path :=
  path_div (run_dir cfg) ("model_" +:+ pretty (seed cfg)).

Definition run_params (cfg : config) : wandb_params :=
  {| wp_project := "multiplicities";
     wp_job_type := "train";
     wp_group := run_name cfg;
     wp_config :=
       {| wc_name := run_name cfg;
          wc_out_path := checkpoint_filename cfg;
          wc_dataset := "cifar10";
          wc_seed := seed cfg;
          wc_sigma := noise_multiplier cfg;
          wc_epochs := epochs cfg;
          wc_batch_size := batch_size cfg;
          wc_lr := lr cfg |};
     wp_name := "model_" +:+ pretty (seed cfg) |}.

(** *** What is built before the loop (lines 59-152) *)

Definition the_device (cfg : config) : device_t := get_device (device cfg).

Definition the_data (cfg : config) : dataset_t :=
  get_data (dataset cfg) (augment cfg).

(** Lines 62-67; the third component of [get_scatter_transform]'s result
    is dropped by the source. *)
Definition scattering_of (cfg : config) : option scattering_t :=
  if use_scattering cfg
  then Some (fst (get_scatter_transform (dataset cfg)))
  else None.

Definition K_of (cfg : config) : Z :=
  if use_scattering cfg
  then snd (get_scatter_transform (dataset cfg))
  else if train_ndim (the_data cfg) =? 4 then 3 else 1.

(** Line 71: [bs // mini_batch_size]. *)
Definition n_acc_steps (cfg : config) : Z :=
  batch_size cfg / mini_batch_size cfg.

(** Lines 89-99. *)
Definition train_loader0 (cfg : config) : loader :=
  DataLoader (the_data cfg) TrainSplit (mini_batch_size cfg) true false.

Definition test_loader0 (cfg : config) : loader :=
  DataLoader (the_data cfg) TestSplit (mini_batch_size cfg) false false.

(** Lines 102-118. *)
Definition is_BN (cfg : config) : bool :=
  bool_decide (input_norm cfg = Some "BN"%string).

(** [f"bn_stats/{dataset}"]; a missing dataset formats as [None]. *)
Definition save_dir (cfg : config) : string :=
  "bn_stats/" +:+ default "None"%string (dataset cfg).

Definition normalization (cfg : config) : bn_stats_t * rdp :=
  scatter_normalization (train_loader0 cfg) (scattering_of cfg) (K_of cfg)
    (the_device cfg) (train_len (the_data cfg)) (train_len (the_data cfg))
    (bn_noise_multiplier cfg) ORDERS (save_dir cfg).

Definition rdp_norm (cfg : config) : rdp_norm_value :=
  if is_BN cfg then NormRdp (snd (normalization cfg)) else NormInt 0.

Definition base_model (cfg : config) : model :=
  if is_BN cfg
  then CNNS (dataset cfg) (K_of cfg) (NormBN (fst (normalization cfg)))
            (size_arg cfg)
  else CNNS (dataset cfg) (K_of cfg)
            (NormPlain (input_norm cfg) (num_groups cfg)) (size_arg cfg).

(** Lines 122-134. *)
Definition the_model (cfg : config) : model :=
  if use_scattering cfg && augment cfg
  then Sequential (scattering_of cfg) (base_model cfg)
  else base_model cfg.

Definition train_loader (cfg : config) : loader :=
  if use_scattering cfg && augment cfg
  then DataLoader (the_data cfg) TrainSplit (mini_batch_size cfg) true true
  else ScatteredLoader (train_loader0 cfg) (scattering_of cfg)
         (the_device cfg) (Some true) (Some (sample_batches cfg)).

Definition test_loader (cfg : config) : loader :=
  if use_scattering cfg && augment cfg
  then test_loader0 cfg
  else ScatteredLoader (test_loader0 cfg) (scattering_of cfg)
         (the_device cfg) None None.

(** Lines 138-143. *)
Definition the_optimizer (cfg : config) : optimizer :=
  if bool_decide (optim cfg = "SGD"%string)
  then SGD (lr cfg) (momentum cfg) (nesterov cfg)
  else Adam (lr cfg).

(** Lines 145-151. *)
Definition the_engine (cfg : config) : engine :=
  {| eng_sample_rate := int_truediv (batch_size cfg) (train_len (the_data cfg));
     eng_alphas := ORDERS;
     eng_noise_multiplier := noise_multiplier cfg;
     eng_max_grad_norm := max_grad_norm cfg |}.

Definition initial_world (cfg : config) : W :=
  assemble (the_device cfg) (the_model cfg) (train_loader cfg)
    (test_loader cfg) (the_optimizer cfg) (the_engine cfg).

(** *** One epoch (lines 158-208) *)

Record loop_state := {
  world : W;
  best_acc : num;
  flat_count : Z;
  files : gmap string checkpoint;
  trace : list event
}.

Inductive flow :=
| Next (s : loop_state)
| Exit (o : outcome) (s : loop_state).

(** [rdp_norm + rdp_sgd] (line 167). *)
Definition py_add_rdp (a : rdp_norm_value) (r : rdp) : rdp :=
  match a with
  | NormInt z => int_add_rdp z r
  | NormRdp x => rdp_add x r
  end.

(** Lines 164-166. *)
Definition rdp_sgd (w : W) : rdp :=
  rdp_mul_int
    (get_renyi_divergence (engine_sample_rate w) (engine_noise_multiplier w))
    (engine_steps w).

(** Lines 167 and 168. *)
Definition epsilon_of (norm : rdp_norm_value) (w : W) : num :=
  fst (get_privacy_spent (py_add_rdp norm (rdp_sgd w))).

Definition epsilon2_of (w : W) : num :=
  fst (get_privacy_spent (rdp_sgd w)).

(** Line 171: [max_epsilon is not None and epsilon >= max_epsilon]. *)
Definition budget_reached (cfg : config) (epsilon : num) : bool :=
  match max_epsilon cfg with
  | Some budget => num_ge epsilon budget
  | None => false
  end.

(** Lines 197-208. *)
Definition checkpoint_of (epoch : Z) (w : W) (test_acc best : num)
    : checkpoint :=
  {| ck_epoch := epoch + 1;
     ck_model := "scatternet";
     ck_state_dict := model_state_dict w;
     ck_test_acc := test_acc;
     ck_best_acc := best;
     ck_optimizer := optimizer_state_dict w |}.

Definition save_step (filename : path) (epoch : Z) (w : W)
    (test_acc best : num) (flat : Z)
    (fs : gmap string checkpoint) (t : list event) : flow :=
  let state := checkpoint_of epoch w test_acc best in
  let s' fs' := {| world := w; best_acc := best; flat_count := flat;
                   files := fs';
                   trace := t ++ [EvSaveCheckpoint state true filename] |} in
  match save_checkpoint state true filename fs with
  | Some fs' => Next (s' fs')
  | None => Exit (Raised FileNotFoundError) (s' fs)
  end.

(** Lines 176-208, entered with the value of [epsilon]. *)
Definition log_and_save (cfg : config) (filename : path) (epoch : Z)
    (w : W) (tr te : num * num) (epsilon : option num)
    (s : loop_state) (t : list event) : flow :=
  let test_acc := snd te in
  let t' := t ++ [EvLog {| lg_epoch := epoch;
                           lg_train_loss := fst tr; lg_train_acc := snd tr;
                           lg_test_loss := fst te; lg_test_acc := test_acc;
                           lg_epsilon := epsilon |}] in
  if num_gt test_acc (best_acc s)
  then save_step filename epoch w test_acc test_acc 0 (files s) t'
  else
    let flat := flat_count s + 1 in
    if (20 <=? flat) && early_stop cfg
    then Exit (Returned Plateau)
           {| world := w; best_acc := best_acc s; flat_count := flat;
              files := files s; trace := t' ++ [EvPrintPlateau] |}
    else save_step filename epoch w test_acc (best_acc s) flat (files s) t'.

(** The body of the [for] loop. *)
Definition epoch_body (cfg : config) (n_acc : Z) (norm : rdp_norm_value)
    (filename : path) (epoch : Z) (s : loop_state) : flow :=
  let tr := train (world s) n_acc in
  let te := test (fst tr) in
  let w := fst te in
  let t := trace s ++ [EvPrintEpoch epoch; EvTrain n_acc; EvTest] in
  if num_gt (noise_multiplier cfg) (num_of_int 0)
  then
    let epsilon := epsilon_of norm w in
    let t' := t ++ [EvPrintEpsilon epsilon (epsilon2_of w)] in
    if budget_reached cfg epsilon
    then Exit (Returned BudgetExhausted)
           {| world := w; best_acc := best_acc s; flat_count := flat_count s;
              files := files s; trace := t' |}
    else log_and_save cfg filename epoch w (snd tr) (snd te) (Some epsilon) s t'
  else log_and_save cfg filename epoch w (snd tr) (snd te) None s t.

(** [for epoch in ...]: a [return] or an exception leaves the loop. *)
Fixpoint for_epochs (body : Z -> loop_state -> flow) (es : list Z)
    (s : loop_state) : flow :=
  match es with
  | [] => Next s
  | e :: es' =>
      match body e s with
      | Next s' => for_epochs body es' s'
      | Exit o s' => Exit o s'
      end
  end.

(** [range(0, epochs)]. *)
Definition range0 (n : Z) : list Z :=
  map Z.of_nat (seq 0 (Z.to_nat n)).

(** *** [main] (lines 25-208) *)

Record run := {
  run_outcome : outcome;
  run_files : gmap string checkpoint;
  run_trace : list event
}.

Definition abort (e : pyexn) (fs : gmap string checkpoint)
    (t : list event) : run :=
  {| run_outcome := Raised e; run_files := fs; run_trace := t |}.

Definition finish (f : flow) : run :=
  match f with
  | Next s =>
      {| run_outcome := Returned EndOfMain;
         run_files := files s; run_trace := trace s |}
  | Exit o s =>
      {| run_outcome := o; run_files := files s; run_trace := trace s |}
  end.

(** Effects of lines 32-57. *)
Definition prologue (cfg : config) : list event :=
  [EvSeed (seed cfg); EvEnsureDir (run_dir cfg); EvWandbInit (run_params cfg)].

(** Effects of lines 102-136. *)
Definition construction (cfg : config) : list event :=
  (if is_BN cfg then [EvScatterNormalization (save_dir cfg)] else [])
  ++ [EvPrintNumParams (get_num_params (the_model cfg))].

Definition loop_start (cfg : config) (fs : gmap string checkpoint)
    : loop_state :=
  {| world := initial_world cfg;
     best_acc := num_of_int 0;
     flat_count := 0;
     files := fs;
     trace := prologue cfg ++ construction cfg |}.

(** Assertions are checked (the interpreter runs without [-O]). *)
Definition main (cfg : config) (fs : gmap string checkpoint) : run :=
  let bs := batch_size cfg in
  (* line 70: bs % mini_batch_size *)
  if mini_batch_size cfg =? 0 then abort ZeroDivisionError fs (prologue cfg)
  else if negb (bs mod mini_batch_size cfg =? 0)
  then abort AssertionError fs (prologue cfg)
  (* lines 74-76 *)
  else if sample_batches cfg && negb (n_acc_steps cfg =? 1)
  then abort AssertionError fs (prologue cfg)
  else if sample_batches cfg && augment cfg
  then abort AssertionError fs (prologue cfg)
  (* line 147: bs / len(train_data) *)
  else if train_len (the_data cfg) =? 0
  then abort ZeroDivisionError fs (prologue cfg ++ construction cfg)
  else if truediv_overflows bs (train_len (the_data cfg))
  then abort OverflowError fs (prologue cfg ++ construction cfg)
  else
    finish (for_epochs
              (epoch_body cfg (n_acc_steps cfg) (rdp_norm cfg)
                 (checkpoint_filename cfg))
              (range0 (epochs cfg)) (loop_start cfg fs)).

End Driver.

(** ** What a run looks like from outside

    The collaborators are functions, so the worlds, accuracies and privacy
    costs of the successive epochs are determined by the configuration.
    The definitions below name them; [main_run] (further down) proves
    that [main] produces exactly these. *)

Section Trajectory.
Context {K : Carriers} {C : Collaborators}.

(** Line 163. *)
Definition private (cfg : config) : bool :=
  num_gt (noise_multiplier cfg) (num_of_int 0).

(** The world once [k] epochs have been trained and tested. *)
Fixpoint world_after (cfg : config) (k : nat) : W :=
  match k with
  | O => initial_world cfg
  | S k' => fst (test (fst (train (world_after cfg k') (n_acc_steps cfg))))
  end.

(** The results of [train] and [test] in epoch [k], counted from 0. *)
Definition train_result_at (cfg : config) (k : nat) : num * num :=
  snd (train (world_after cfg k) (n_acc_steps cfg)).

Definition test_result_at (cfg : config) (k : nat) : num * num :=
  snd (test (fst (train (world_after cfg k) (n_acc_steps cfg)))).

Definition test_acc_at (cfg : config) (k : nat) : num :=
  snd (test_result_at cfg k).

(** The privacy costs computed in epoch [k]. *)
Definition epsilon_at (cfg : config) (k : nat) : num :=
  epsilon_of (rdp_norm cfg) (world_after cfg (S k)).

Definition epsilon2_at (cfg : config) (k : nat) : num :=
  epsilon2_of (world_after cfg (S k)).

(** Lines 188-192 on the pair [(best_acc, flat_count)]. *)
Definition plateau_update (test_acc : num) (bf : num * Z) : num * Z :=
  if num_gt test_acc (fst bf) then (test_acc, 0) else (fst bf, snd bf + 1).

(** [(best_acc, flat_count)] when epoch [k] starts. *)
Fixpoint locals_at (cfg : config) (k : nat) : num * Z :=
  match k with
  | O => (num_of_int 0, 0)
  | S k' => plateau_update (test_acc_at cfg k') (locals_at cfg k')
  end.

(** The two stopping rules, as conditions on epoch [k]. *)
Definition budget_fires (cfg : config) (k : nat) : bool :=
  private cfg && budget_reached cfg (epsilon_at cfg k).

Definition plateau_fires (cfg : config) (k : nat) : bool :=
  negb (num_gt (test_acc_at cfg k) (fst (locals_at cfg k)))
  && (20 <=? snd (locals_at cfg k) + 1) && early_stop cfg.

Definition stops (cfg : config) (k : nat) : bool :=
  budget_fires cfg k || plateau_fires cfg k.

(** The first epoch among [k, k+1, ..., k+n-1] in which a rule fires. *)
Fixpoint first_stop_from (cfg : config) (k n : nat) : option nat :=
  match n with
  | O => None
  | S n' => if stops cfg k then Some k else first_stop_from cfg (S k) n'
  end.

Definition stop_site (cfg : config) (k : nat) : return_site :=
  if budget_fires cfg k then BudgetExhausted else Plateau.

(** The effects of epoch [k]. *)
Definition epoch_head (cfg : config) (k : nat) : list event :=
  [EvPrintEpoch (Z.of_nat k); EvTrain (n_acc_steps cfg); EvTest].

Definition epsilon_print (cfg : config) (k : nat) : list event :=
  if private cfg
  then [EvPrintEpsilon (epsilon_at cfg k) (epsilon2_at cfg k)]
  else [].

Definition log_at (cfg : config) (k : nat) : log_record :=
  {| lg_epoch := Z.of_nat k;
     lg_train_loss := fst (train_result_at cfg k);
     lg_train_acc := snd (train_result_at cfg k);
     lg_test_loss := fst (test_result_at cfg k);
     lg_test_acc := test_acc_at cfg k;
     lg_epsilon := if private cfg then Some (epsilon_at cfg k) else None |}.

Definition checkpoint_at (cfg : config) (k : nat) : checkpoint :=
  checkpoint_of (Z.of_nat k) (world_after cfg (S k)) (test_acc_at cfg k)
    (fst (locals_at cfg (S k))).

(** An epoch that runs to its end. *)
Definition full_epoch (cfg : config) (k : nat) : list event :=
  epoch_head cfg k ++ epsilon_print cfg k
  ++ [EvLog (log_at cfg k);
      EvSaveCheckpoint (checkpoint_at cfg k) true (checkpoint_filename cfg)].

(** An epoch cut short by a [return]. *)
Definition last_epoch (cfg : config) (k : nat) : list event :=
  epoch_head cfg k ++ epsilon_print cfg k
  ++ (if budget_fires cfg k then []
      else [EvLog (log_at cfg k); EvPrintPlateau]).

Fixpoint trace_at (cfg : config) (k : nat) : list event :=
  match k with
  | O => prologue cfg ++ construction cfg
  | S k' => trace_at cfg k' ++ full_epoch cfg k'
  end.

Fixpoint files_at (cfg : config) (fs : gmap string checkpoint) (k : nat)
    : gmap string checkpoint :=
  match k with
  | O => fs
  | S k' =>
      <[path_str (checkpoint_filename cfg) +:+ "_best" := checkpoint_at cfg k']>
        (<[path_str (checkpoint_filename cfg) := checkpoint_at cfg k']>
           (files_at cfg fs k'))
  end.

Definition state_at (cfg : config) (fs : gmap string checkpoint) (k : nat)
    : loop_state :=
  {| world := world_after cfg k;
     best_acc := fst (locals_at cfg k);
     flat_count := snd (locals_at cfg k);
     files := files_at cfg fs k;
     trace := trace_at cfg k |}.

Definition stop_state (cfg : config) (fs : gmap string checkpoint) (k : nat)
    : loop_state :=
  {| world := world_after cfg (S k);
     best_acc := fst (locals_at cfg k);
     flat_count := if budget_fires cfg k then snd (locals_at cfg k)
                   else snd (locals_at cfg k) + 1;
     files := files_at cfg fs k;
     trace := trace_at cfg k ++ last_epoch cfg k |}.

(** The checks of lines 70-76 pass and the division of line 147 has a
    result. *)
Definition preflight (cfg : config) : bool :=
  negb (mini_batch_size cfg =? 0)
  && (batch_size cfg mod mini_batch_size cfg =? 0)
  && negb (sample_batches cfg && negb (n_acc_steps cfg =? 1))
  && negb (sample_batches cfg && augment cfg)
  && negb (train_len (the_data cfg) =? 0)
  && negb (truediv_overflows (batch_size cfg) (train_len (the_data cfg))).

(** Readings of a trace. *)
Definition is_train (e : event) : bool :=
  match e with EvTrain _ => true | _ => false end.

Definition epochs_run (t : list event) : nat :=
  length (filter (fun e => is_train e = true) t).

Definition printed_epsilon (e : event) : option num :=
  match e with EvPrintEpsilon eps _ => Some eps | _ => None end.

Definition logged (e : event) : option log_record :=
  match e with EvLog r => Some r | _ => None end.

Definition saved (e : event) : option (checkpoint * bool * path) :=
  match e with
  | EvSaveCheckpoint st b f => Some (st, b, f)
  | _ => None
  end.

Definition built_model (e : event) : bool :=
  match e with EvPrintNumParams _ => true | _ => false end.

End Trajectory.

(** ** The command line (lines 211-236)

    The parser is the table of [add_argument] calls; [parse_known] is
    [argparse] on command lines that spell every option in full and
    separate it from its value, the value not starting with a dash.  On
    other spellings (a unique prefix of an option, [--opt=value], a
    negative number as value) [parse_known] answers [None]. *)

Section CommandLine.
Context {K : Carriers} {C : Collaborators}.

Inductive pyval :=
| VNone
| VBool (b : bool)
| VInt (z : Z)
| VNum (x : num)
| VStr (s : string).

Inductive arg_action := store | store_true | store_false.

Inductive arg_type := type_int | type_float | type_str.

Record argument := {
  arg_flag : string;
  arg_dest : string;
  arg_action_of : arg_action;
  arg_type_of : option arg_type;
  arg_default : pyval;
  arg_choices : option (list string)
}.

Definition option_arg (flag dest : string) (ty : option arg_type)
    (dflt : pyval) (choices : option (list string)) : argument :=
  {| arg_flag := flag; arg_dest := dest; arg_action_of := store;
     arg_type_of := ty; arg_default := dflt; arg_choices := choices |}.

Definition switch_arg (flag dest : string) (a : arg_action) : argument :=
  {| arg_flag := flag; arg_dest := dest; arg_action_of := a;
     arg_type_of := None; arg_default := VNone; arg_choices := None |}.

Definition parser : list argument :=
  [ option_arg "--dataset" "dataset" None VNone
      (Some ["cifar10"; "fmnist"; "mnist"]);
    option_arg "--seed" "seed" (Some type_int) (VInt 0) None;
    option_arg "--size" "size" None VNone None;
    switch_arg "--augment" "augment" store_true;
    switch_arg "--use_scattering" "use_scattering" store_true;
    option_arg "--batch_size" "batch_size" (Some type_int) (VInt 2048) None;
    option_arg "--mini_batch_size" "mini_batch_size" (Some type_int)
      (VInt 256) None;
    option_arg "--lr" "lr" (Some type_float) (VNum (num_of_decimal 1 (-2)))
      None;
    option_arg "--optim" "optim" (Some type_str) (VStr "SGD")
      (Some ["SGD"; "Adam"]);
    option_arg "--momentum" "momentum" (Some type_float)
      (VNum (num_of_decimal 9 (-1))) None;
    switch_arg "--nesterov" "nesterov" store_true;
    option_arg "--noise_multiplier" "noise_multiplier" (Some type_float)
      (VInt 1) None;
    option_arg "--max_grad_norm" "max_grad_norm" (Some type_float)
      (VNum (num_of_decimal 1 (-1))) None;
    option_arg "--epochs" "epochs" (Some type_int) (VInt 100) None;
    option_arg "--input_norm" "input_norm" None VNone
      (Some ["GroupNorm"; "BN"]);
    option_arg "--num_groups" "num_groups" (Some type_int) (VInt 81) None;
    option_arg "--bn_noise_multiplier" "bn_noise_multiplier"
      (Some type_float) (VInt 6) None;
    option_arg "--max_epsilon" "max_epsilon" (Some type_float) VNone None;
    switch_arg "--early_stop" "early_stop" store_false;
    switch_arg "--sample_batches" "sample_batches" store_true;
    option_arg "--out_dir" "out_dir" None (VStr "out") None;
    option_arg "--device" "device" None (VStr "cuda") None ].

(** What an absent option leaves in the namespace: [store_true] defaults
    to [False] and [store_false] to [True]. *)
Definition default_value (a : argument) : pyval :=
  match arg_action_of a with
  | store => arg_default a
  | store_true => VBool false
  | store_false => VBool true
  end.

Definition defaults : gmap string pyval :=
  foldr (fun a ns => <[arg_dest a := default_value a]> ns) ∅ parser.

Definition starts_with_dash (s : string) : bool :=
  match s with
  | String "-"%char _ => true
  | _ => false
  end.

Definition in_choices (a : argument) (word : string) : bool :=
  match arg_choices a with
  | Some cs => bool_decide (word ∈ cs)
  | None => true
  end.

Definition convert (a : argument) (word : string) : option pyval :=
  if in_choices a word then
    match arg_type_of a with
    | Some type_int => VInt <$> int_of_str word
    | Some type_float => VNum <$> float_of_str word
    | Some type_str | None => Some (VStr word)
    end
  else None.

Definition find_argument (word : string) : option argument :=
  List.find (fun a => String.eqb (arg_flag a) word) parser.

Fixpoint parse_known (argv : list string) (ns : gmap string pyval)
    : option (gmap string pyval) :=
  match argv with
  | [] => Some ns
  | word :: rest =>
      match find_argument word with
      | None => None
      | Some a =>
          match arg_action_of a with
          | store_true => parse_known rest (<[arg_dest a := VBool true]> ns)
          | store_false => parse_known rest (<[arg_dest a := VBool false]> ns)
          | store =>
              match rest with
              | [] => None
              | value :: rest' =>
                  if starts_with_dash value then None
                  else
                    match convert a value with
                    | Some v => parse_known rest' (<[arg_dest a := v]> ns)
                    | None => None
                    end
              end
          end
      end
  end.

(** [parser.parse_args()]. *)
Definition parse_args (argv : list string) : option (gmap string pyval) :=
  parse_known argv defaults.

Definition as_bool (v : pyval) : option bool :=
  match v with VBool b => Some b | _ => None end.

Definition as_int (v : pyval) : option Z :=
  match v with VInt z => Some z | _ => None end.

Definition as_num (v : pyval) : option num :=
  match v with
  | VNum x => Some x
  | VInt z => Some (num_of_int z)
  | _ => None
  end.

Definition as_str (v : pyval) : option string :=
  match v with VStr s => Some s | _ => None end.

Definition or_none {A} (f : pyval -> option A) (v : pyval)
    : option (option A) :=
  match v with
  | VNone => Some None
  | _ => Some <$> f v
  end.

(** Line 236 passes the namespace to [main] as keyword arguments: every
    parameter of [main] is bound by name. *)
Definition config_of (ns : gmap string pyval) : option config :=
  a_dataset ← ns !! "dataset" ≫= or_none as_str;
  a_seed ← ns !! "seed" ≫= as_int;
  a_size ← ns !! "size" ≫= or_none as_str;
  a_augment ← ns !! "augment" ≫= as_bool;
  a_use_scattering ← ns !! "use_scattering" ≫= as_bool;
  a_batch_size ← ns !! "batch_size" ≫= as_int;
  a_mini_batch_size ← ns !! "mini_batch_size" ≫= as_int;
  a_lr ← ns !! "lr" ≫= as_num;
  a_optim ← ns !! "optim" ≫= as_str;
  a_momentum ← ns !! "momentum" ≫= as_num;
  a_nesterov ← ns !! "nesterov" ≫= as_bool;
  a_noise_multiplier ← ns !! "noise_multiplier" ≫= as_num;
  a_max_grad_norm ← ns !! "max_grad_norm" ≫= as_num;
  a_epochs ← ns !! "epochs" ≫= as_int;
  a_input_norm ← ns !! "input_norm" ≫= or_none as_str;
  a_num_groups ← ns !! "num_groups" ≫= or_none as_int;
  a_bn_noise_multiplier ← ns !! "bn_noise_multiplier" ≫= or_none as_num;
  a_max_epsilon ← ns !! "max_epsilon" ≫= or_none as_num;
  a_early_stop ← ns !! "early_stop" ≫= as_bool;
  a_sample_batches ← ns !! "sample_batches" ≫= as_bool;
  a_out_dir ← ns !! "out_dir" ≫= as_str;
  a_device ← ns !! "device" ≫= as_str;
  Some {| dataset := a_dataset; seed := a_seed; augment := a_augment;
          use_scattering := a_use_scattering; size_arg := a_size;
          batch_size := a_batch_size; mini_batch_size := a_mini_batch_size;
          sample_batches := a_sample_batches; lr := a_lr; optim := a_optim;
          momentum := a_momentum; nesterov := a_nesterov;
          noise_multiplier := a_noise_multiplier;
          max_grad_norm := a_max_grad_norm; epochs := a_epochs;
          input_norm := a_input_norm; num_groups := a_num_groups;
          bn_noise_multiplier := a_bn_noise_multiplier;
          max_epsilon := a_max_epsilon; out_dir := a_out_dir;
          early_stop := a_early_stop; device := a_device |}.

(** The configuration a command line gives to [main]. *)
Definition cli_config (argv : list string) : option config :=
  parse_args argv ≫= config_of.

End CommandLine.

(** ** Gradient accumulation (spec, section 4.3)

    [train_utils.train] and the step of the attached privacy engine are
    not among the source files; [main] only computes [n_acc_steps] for
    them (line 71) and reads the engine's step counter (line 166). *)

Section Accumulation.
(** The clipped, noised gradient sum of one physical sub-batch. *)
Variable grad : Type.

(** Modelled from the spec: what an optimization step of section 4.3
    reads and writes, the sums accumulated for the current logical batch,
    the parameter updates applied and the accountant's step counter. *)
Record engine_state := {
  (** Sub-batch sums accumulated since the last parameter update. *)
  accumulated : list grad;
  (** The parameter updates applied so far, each with the sub-batch sums
      that went into it. *)
  updates : list (list grad);
  (** The step counter the accountant reads. *)
  accountant_steps : Z
}.

(** Modelled from the spec: steps 1-4 of section 4.3 run on one physical
    sub-batch and its sum joins the accumulated ones; nothing is applied
    and nothing is counted. *)
Definition virtual_step (g : grad) (st : engine_state) : engine_state :=
  {| accumulated := accumulated st ++ [g];
     updates := updates st;
     accountant_steps := accountant_steps st |}.

(** Modelled from the spec: steps 5 and 6 of section 4.3, the accumulated
    sum is normalized and handed to the base optimizer for a single
    parameter update, and the step counter used by the accountant is
    incremented. *)
Definition optimizer_step (st : engine_state) : engine_state :=
  {| accumulated := [];
     updates := updates st ++ [accumulated st];
     accountant_steps := accountant_steps st + 1 |}.

(** Modelled from the spec: a logical batch is [n_acc] physical
    sub-batches, and the update is applied once per logical batch, when
    its last sub-batch has been accumulated. *)
Definition sub_batch (n_acc : Z) (st : engine_state) (g : grad)
    : engine_state :=
  let st' := virtual_step g st in
  if Z.of_nat (length (accumulated st')) =? n_acc
  then optimizer_step st'
  else st'.

(** Modelled from the spec: one pass over the physical sub-batches, in
    order. *)
Definition train_pass (n_acc : Z) (gs : list grad) (st : engine_state)
    : engine_state :=
  foldl (sub_batch n_acc) st gs.

End Accumulation.

Arguments accumulated {grad} _.
Arguments updates {grad} _.
Arguments accountant_steps {grad} _.
Arguments virtual_step {grad} _ _.
Arguments optimizer_step {grad} _.
Arguments sub_batch {grad} _ _ _.
Arguments train_pass {grad} _ _ _.

(** ** A small instance

    Integers for numbers and vectors, a world that counts optimizer steps
    and epochs, an accuracy that climbs for six epochs and then stays
    below its peak.  It is used to run the driver on concrete
    configurations. *)

Module Demo.

Record demo_world := {
  dw_steps : Z;
  dw_epochs : Z;
  dw_rate : Z;
  dw_noise : Z
}.

#[export] Instance demo_carriers : Carriers :=
  {| num := Z; rdp := Z; device_t := unit; dataset_t := Z;
     scattering_t := unit; bn_stats_t := unit; orders_t := unit;
     model_state_t := Z; optim_state_t := Z; path := string;
     W := demo_world |}.

(** Held-out accuracy after [k] epochs: 1, 2, ..., 6, then 3 for ever. *)
Definition demo_acc (k : Z) : Z := if k <=? 6 then k else 3.

Definition demo_train (w : demo_world) (n_acc : Z) : demo_world * (Z * Z) :=
  ({| dw_steps := dw_steps w + 1; dw_epochs := dw_epochs w + 1;
      dw_rate := dw_rate w; dw_noise := dw_noise w |},
   (100 - dw_epochs w, demo_acc (dw_epochs w))).

Definition demo_test (w : demo_world) : demo_world * (Z * Z) :=
  (w, (100 - dw_epochs w, demo_acc (dw_epochs w))).

Definition digit_of (c : ascii) : option Z :=
  let n := Z.of_nat (nat_of_ascii c) in
  if (48 <=? n) && (n <=? 57) then Some (n - 48) else None.

Fixpoint digits_from (acc : Z) (s : string) : option Z :=
  match s with
  | EmptyString => Some acc
  | String c s' =>
      match digit_of c with
      | Some d => digits_from (10 * acc + d) s'
      | None => None
      end
  end.

Definition demo_int (s : string) : option Z :=
  match s with
  | EmptyString => None
  | _ => digits_from 0 s
  end.

#[export] Instance demo : Collaborators :=
  {| num_of_int := fun z => z;
     num_gt := Z.gtb;
     num_ge := Z.geb;
     int_truediv := Z.div;
     truediv_overflows := fun a b => 2 ^ 1024 <=? Z.abs a / Z.abs b;
     num_str := fun x : Z => pretty x;
     num_of_decimal := fun m e => m;
     int_of_str := demo_int;
     float_of_str := demo_int;
     Path := fun s => s;
     path_div := fun p s => p +:+ "/" +:+ s;
     path_str := fun p => p;
     get_device := fun _ => tt;
     get_data := fun _ _ => 50000;
     train_len := fun d => d;
     train_ndim := fun _ => 4;
     get_scatter_transform := fun _ => (tt, 81);
     get_num_params := fun _ => 1000;
     assemble := fun _ _ _ _ _ e =>
       {| dw_steps := 0; dw_epochs := 0;
          dw_rate := eng_sample_rate e; dw_noise := eng_noise_multiplier e |};
     train := demo_train;
     test := demo_test;
     model_state_dict := dw_steps;
     optimizer_state_dict := dw_epochs;
     engine_sample_rate := dw_rate;
     engine_noise_multiplier := dw_noise;
     engine_steps := dw_steps;
     ORDERS := tt;
     get_renyi_divergence := fun _ _ => 1;
     get_privacy_spent := fun r => (r, 2);
     scatter_normalization := fun _ _ _ _ _ _ _ _ _ => (tt, 2);
     rdp_mul_int := Z.mul;
     rdp_add := Z.add;
     int_add_rdp := Z.add |}.

(** The defaults of the command line, with a noise multiplier of [nm],
    a budget [budget] and [n] epochs. *)
Definition demo_config (nm : Z) (budget : option Z) (n : Z) : config :=
  {| dataset := Some "cifar10"%string; seed := 0; augment := false;
     use_scattering := false; size_arg := None;
     batch_size := 2048; mini_batch_size := 256; sample_batches := false;
     lr := 1; optim := "SGD"; momentum := 9; nesterov := false;
     noise_multiplier := nm; max_grad_norm := 1; epochs := n;
     input_norm := None; num_groups := Some 81;
     bn_noise_multiplier := Some 6; max_epsilon := budget;
     out_dir := "out"; early_stop := true; device := "cuda" |}.

(** The same with [--mini_batch_size 0]. *)
Definition zero_mini_config : config :=
  {| dataset := Some "cifar10"%string; seed := 0; augment := false;
     use_scattering := false; size_arg := None;
     batch_size := 2048; mini_batch_size := 0; sample_batches := false;
     lr := 1; optim := "SGD"; momentum := 9; nesterov := false;
     noise_multiplier := 1; max_grad_norm := 1; epochs := 100;
     input_norm := None; num_groups := Some 81;
     bn_noise_multiplier := Some 6; max_epsilon := None;
     out_dir := "out"; early_stop := true; device := "cuda" |}.

(** Poisson sampling requested together with accumulation. *)
Definition poisson_config : config :=
  {| dataset := Some "mnist"%string; seed := 0; augment := false;
     use_scattering := true; size_arg := None;
     batch_size := 2048; mini_batch_size := 256; sample_batches := true;
     lr := 1; optim := "SGD"; momentum := 9; nesterov := false;
     noise_multiplier := 1; max_grad_norm := 1; epochs := 100;
     input_norm := Some "BN"%string; num_groups := Some 81;
     bn_noise_multiplier := Some 6; max_epsilon := None;
     out_dir := "out"; early_stop := true; device := "cuda" |}.

(** The same run on another dataset. *)
Definition mnist_config : config :=
  {| dataset := Some "mnist"%string; seed := 0; augment := false;
     use_scattering := false; size_arg := None;
     batch_size := 2048; mini_batch_size := 256; sample_batches := false;
     lr := 1; optim := "SGD"; momentum := 9; nesterov := false;
     noise_multiplier := 1; max_grad_norm := 1; epochs := 100;
     input_norm := None; num_groups := Some 81;
     bn_noise_multiplier := Some 6; max_epsilon := None;
     out_dir := "out"; early_stop := true; device := "cuda" |}.

Definition no_files : gmap string checkpoint := ∅.

(** An engine that has not stepped yet, and eight sub-batches. *)
Definition fresh_engine : engine_state nat :=
  {| accumulated := []; updates := []; accountant_steps := 0 |}.

Definition eight_sub_batches : list nat := [1; 2; 3; 4; 5; 6; 7; 8]%nat.

End Demo.

(** ** Further readings and configurations *)

Section MoreReadings.
Context {K : Carriers}.

(** The calls of [wandb.init] in a trace. *)
Definition initialised (e : event) : option wandb_params :=
  match e with EvWandbInit p => Some p | _ => None end.

(** The [n_acc_steps] handed to [train]. *)
Definition trained_with (e : event) : option Z :=
  match e with EvTrain n => Some n | _ => None end.

End MoreReadings.

(** The parameters of [main] (lines 25-30). *)
Definition main_parameters : list string :=
  [ "dataset"; "seed"; "augment"; "use_scattering"; "size"; "batch_size";
    "mini_batch_size"; "sample_batches"; "lr"; "optim"; "momentum";
    "nesterov"; "noise_multiplier"; "max_grad_norm"; "epochs"; "input_norm";
    "num_groups"; "bn_noise_multiplier"; "max_epsilon"; "out_dir";
    "early_stop"; "device" ]%string.

Section MoreCommandLine.
Context {K : Carriers} {C : Collaborators}.

(** What an occurrence of an option can leave in the namespace. *)
Definition writes (a : argument) (v : pyval) : Prop :=
  match arg_action_of a with
  | store => exists word, convert a word = Some v
  | store_true => v = VBool true
  | store_false => v = VBool false
  end.

End MoreCommandLine.

Module MoreDemo.
Import Demo.

(** Poisson sampling with one mini-batch per logical batch. *)
Definition poisson_ok_config : config :=
  {| dataset := Some "mnist"%string; seed := 3; augment := false;
     use_scattering := true; size_arg := None;
     batch_size := 256; mini_batch_size := 256; sample_batches := true;
     lr := 1; optim := "Adam"; momentum := 9; nesterov := false;
     noise_multiplier := 1; max_grad_norm := 1; epochs := 4;
     input_norm := Some "BN"%string; num_groups := Some 81;
     bn_noise_multiplier := Some 6; max_epsilon := Some 10;
     out_dir := "runs"; early_stop := true; device := "cpu" |}.

(** A batch size too large for the division of line 147. *)
Definition huge_batch_config : config :=
  {| dataset := Some "cifar10"%string; seed := 0; augment := false;
     use_scattering := false; size_arg := None;
     batch_size := 256 * 2 ^ 1300; mini_batch_size := 256;
     sample_batches := false;
     lr := 1; optim := "SGD"; momentum := 9; nesterov := false;
     noise_multiplier := 1; max_grad_norm := 1; epochs := 100;
     input_norm := None; num_groups := Some 81;
     bn_noise_multiplier := Some 6; max_epsilon := None;
     out_dir := "out"; early_stop := true; device := "cuda" |}.

End MoreDemo.

(** ** The loop, epoch by epoch *)

Section LoopLemmas.
Context {K : Carriers} {C : Collaborators}.

(** With [is_best=True] both the file and its copy hold the state. *)
Lemma save_checkpoint_best (st : checkpoint) (f : path)
    (fs : gmap string checkpoint) :
  save_checkpoint st true f fs
  = Some (<[path_str f +:+ "_best" := st]> (<[path_str f := st]> fs)).
Proof.
  unfold save_checkpoint, copyfile, torch_save.
  by rewrite lookup_insert_eq.
Qed.

Lemma save_step_next (f : path) (epoch : Z) (w : W) (acc best : num)
    (flat : Z) (fs : gmap string checkpoint) (t : list event) :
  save_step f epoch w acc best flat fs t
  = Next {| world := w; best_acc := best; flat_count := flat;
            files :=
              <[path_str f +:+ "_best" := checkpoint_of epoch w acc best]>
                (<[path_str f := checkpoint_of epoch w acc best]> fs);
            trace := t ++ [EvSaveCheckpoint (checkpoint_of epoch w acc best)
                             true f] |}.
Proof. unfold save_step. by rewrite save_checkpoint_best. Qed.

(** Epoch [k] of a run that got that far. *)
Lemma epoch_body_at (cfg : config) (fs : gmap string checkpoint) (k : nat) :
  epoch_body cfg (n_acc_steps cfg) (rdp_norm cfg) (checkpoint_filename cfg)
    (Z.of_nat k) (state_at cfg fs k)
  = if stops cfg k
    then Exit (Returned (stop_site cfg k)) (stop_state cfg fs k)
    else Next (state_at cfg fs (S k)).
Proof.
  unfold epoch_body, log_and_save, stops, stop_site, stop_state, state_at,
    plateau_fires, last_epoch, full_epoch, epsilon_print, checkpoint_at,
    log_at, budget_fires, epoch_head, epsilon_at, epsilon2_at, test_acc_at,
    test_result_at, train_result_at, private.
  rewrite !save_step_next.
  cbn [world best_acc flat_count files trace locals_at trace_at files_at
       world_after].
  unfold full_epoch, epsilon_print, checkpoint_at, plateau_update, log_at,
    epoch_head, epsilon_at, epsilon2_at, test_acc_at, test_result_at,
    train_result_at, private.
  cbn [locals_at world_after]. unfold plateau_update, test_acc_at,
    test_result_at.
  destruct (num_gt (noise_multiplier cfg) (num_of_int 0)); cbn [andb orb];
    repeat match goal with
           | |- context [budget_reached ?c ?e] =>
               destruct (budget_reached c e); cbn [andb orb]
           end;
    repeat match goal with
           | |- context [num_gt ?a ?b] =>
               destruct (num_gt a b); cbn [negb andb orb fst snd]
           end;
    repeat match goal with
           | |- context [20 <=? ?x] =>
               destruct (20 <=? x); cbn [negb andb orb fst snd]
           end;
    try destruct (early_stop cfg); cbn [negb andb orb fst snd];
    rewrite <- ?app_assoc; cbn [app]; reflexivity.
Qed.

(** The loop from epoch [k] on, for [n] more epochs. *)
Lemma for_epochs_from (cfg : config) (fs : gmap string checkpoint) (n k : nat) :
  for_epochs
    (epoch_body cfg (n_acc_steps cfg) (rdp_norm cfg) (checkpoint_filename cfg))
    (map Z.of_nat (seq k n)) (state_at cfg fs k)
  = match first_stop_from cfg k n with
    | Some j => Exit (Returned (stop_site cfg j)) (stop_state cfg fs j)
    | None => Next (state_at cfg fs (k + n))
    end.
Proof.
  revert k. induction n as [|n IH]; intros k.
  - cbn. by rewrite Nat.add_0_r.
  - cbn [seq map for_epochs first_stop_from]. rewrite epoch_body_at.
    destruct (stops cfg k); [done|]. rewrite IH.
    by replace (S k + n)%nat with (k + S n)%nat by lia.
Qed.

(** A run whose checks pass is the prefix of full epochs up to the first
    epoch in which a stopping rule fires, and that epoch cut short. *)
Lemma main_run (cfg : config) (fs : gmap string checkpoint) :
  preflight cfg = true ->
  main cfg fs
  = match first_stop_from cfg 0 (Z.to_nat (epochs cfg)) with
    | Some j =>
        {| run_outcome := Returned (stop_site cfg j);
           run_files := files_at cfg fs j;
           run_trace := trace_at cfg j ++ last_epoch cfg j |}
    | None =>
        {| run_outcome := Returned EndOfMain;
           run_files := files_at cfg fs (Z.to_nat (epochs cfg));
           run_trace := trace_at cfg (Z.to_nat (epochs cfg)) |}
    end.
Proof.
  unfold preflight. intros H.
  apply andb_prop in H as [H H6].
  apply andb_prop in H as [H H5]. apply andb_prop in H as [H H4].
  apply andb_prop in H as [H H3]. apply andb_prop in H as [H1 H2].
  apply negb_true_iff in H1, H3, H4, H5, H6.
  unfold main. rewrite H1, H2, H3, H4, H5, H6. cbn [negb].
  change (loop_start cfg fs) with (state_at cfg fs 0).
  unfold range0. rewrite for_epochs_from.
  destruct (first_stop_from cfg 0 (Z.to_nat (epochs cfg))); reflexivity.
Qed.

(** A run whose checks fail raises before the loop, with nothing written
    and nothing trained. *)
Lemma main_abort (cfg : config) (fs : gmap string checkpoint) :
  preflight cfg = false ->
  exists e t,
    main cfg fs = abort e fs t
    /\ (e = AssertionError \/ e = ZeroDivisionError \/ e = OverflowError)
    /\ (t = prologue cfg \/ t = prologue cfg ++ construction cfg).
Proof.
  unfold preflight, main. intros H.
  destruct (mini_batch_size cfg =? 0); [eauto 9|].
  destruct (batch_size cfg mod mini_batch_size cfg =? 0); [|eauto 9].
  cbn [negb andb] in *.
  destruct (sample_batches cfg && negb (n_acc_steps cfg =? 1)); [eauto 9|].
  destruct (sample_batches cfg && augment cfg); [eauto 9|].
  cbn [negb andb] in *.
  destruct (train_len (the_data cfg) =? 0); [eauto 9|].
  cbn [negb andb] in *.
  destruct (truediv_overflows _ _); [eauto 9|done].
Qed.

End LoopLemmas.

(** ** The stopping rules *)

Section StopLemmas.
Context {K : Carriers} {C : Collaborators}.

Lemma first_stop_Some (cfg : config) (n k j : nat) :
  first_stop_from cfg k n = Some j ->
  (k <= j < k + n)%nat /\ stops cfg j = true
  /\ forall i, (k <= i < j)%nat -> stops cfg i = false.
Proof.
  revert k. induction n as [|n IH]; intros k; cbn; [done|].
  destruct (stops cfg k) eqn:Hk.
  - intros [= <-]. repeat split; [lia..|done|intros; lia].
  - intros H. apply IH in H as (Hj & Hs & Hb).
    repeat split; [lia..|done|].
    intros i Hi. destruct (decide (i = k)) as [->|]; [done|]. apply Hb. lia.
Qed.

Lemma first_stop_None (cfg : config) (n k : nat) :
  first_stop_from cfg k n = None ->
  forall i, (k <= i < k + n)%nat -> stops cfg i = false.
Proof.
  revert k. induction n as [|n IH]; intros k; cbn; [intros; lia|].
  destruct (stops cfg k) eqn:Hk; [done|].
  intros H i Hi. destruct (decide (i = k)) as [->|]; [done|].
  apply (IH _ H). lia.
Qed.

Lemma first_stop_at (cfg : config) (n k j : nat) :
  (k <= j < k + n)%nat ->
  (forall i, (k <= i < j)%nat -> stops cfg i = false) ->
  stops cfg j = true ->
  first_stop_from cfg k n = Some j.
Proof.
  revert k. induction n as [|n IH]; intros k Hj Hb Hs; [lia|]. cbn.
  destruct (decide (j = k)) as [->|Hne].
  - by rewrite Hs.
  - rewrite Hb by lia. apply IH; [lia| |done]. intros. apply Hb. lia.
Qed.

(** [flat_count] grows by at most one per epoch. *)
Lemma flat_count_bound (cfg : config) (k : nat) :
  0 <= snd (locals_at cfg k) <= Z.of_nat k.
Proof.
  induction k as [|k IH]; [cbn; lia|].
  cbn [locals_at]. unfold plateau_update.
  destruct (num_gt _ _); cbn [snd]; lia.
Qed.

(** The plateau rule cannot fire in the first nineteen epochs. *)
Lemma plateau_needs_20 (cfg : config) (k : nat) :
  (k < 19)%nat -> plateau_fires cfg k = false.
Proof.
  intros Hk. unfold plateau_fires.
  pose proof (flat_count_bound cfg k).
  replace (20 <=? snd (locals_at cfg k) + 1) with false
    by (symmetry; apply Z.leb_gt; lia).
  by rewrite andb_false_r.
Qed.

(** With [early_stop=False] it never fires. *)
Lemma plateau_disabled (cfg : config) (k : nat) :
  early_stop cfg = false -> plateau_fires cfg k = false.
Proof. intros H. unfold plateau_fires. rewrite H. apply andb_false_r. Qed.

(** Without noise, or without a budget, the budget rule never fires. *)
Lemma budget_needs_noise (cfg : config) (k : nat) :
  private cfg = false -> budget_fires cfg k = false.
Proof. intros H. unfold budget_fires. by rewrite H. Qed.

Lemma stop_site_budget (cfg : config) (k : nat) :
  stop_site cfg k = BudgetExhausted <-> budget_fires cfg k = true.
Proof. unfold stop_site. destruct (budget_fires cfg k); split; congruence. Qed.

Lemma stop_site_plateau (cfg : config) (k : nat) :
  stops cfg k = true ->
  stop_site cfg k = Plateau ->
  budget_fires cfg k = false /\ plateau_fires cfg k = true.
Proof.
  unfold stops, stop_site. destruct (budget_fires cfg k); [done|].
  cbn. auto.
Qed.

(** How a run can end. *)
Lemma main_cases (cfg : config) (fs : gmap string checkpoint) :
  (exists e t,
      preflight cfg = false
      /\ main cfg fs = abort e fs t
      /\ (t = prologue cfg \/ t = prologue cfg ++ construction cfg))
  \/ (exists j,
         preflight cfg = true
         /\ (j < Z.to_nat (epochs cfg))%nat
         /\ stops cfg j = true
         /\ (forall i, (i < j)%nat -> stops cfg i = false)
         /\ main cfg fs
            = {| run_outcome := Returned (stop_site cfg j);
                 run_files := files_at cfg fs j;
                 run_trace := trace_at cfg j ++ last_epoch cfg j |})
  \/ (preflight cfg = true
      /\ (forall i, (i < Z.to_nat (epochs cfg))%nat -> stops cfg i = false)
      /\ main cfg fs
         = {| run_outcome := Returned EndOfMain;
              run_files := files_at cfg fs (Z.to_nat (epochs cfg));
              run_trace := trace_at cfg (Z.to_nat (epochs cfg)) |}).
Proof.
  destruct (preflight cfg) eqn:Hp.
  - right. rewrite (main_run cfg fs Hp).
    destruct (first_stop_from cfg 0 (Z.to_nat (epochs cfg))) as [j|] eqn:Hf.
    + left. exists j. apply first_stop_Some in Hf as (Hj & Hs & Hb).
      repeat split; [lia|done|intros; apply Hb; lia].
    + right. repeat split. intros i Hi.
      apply (first_stop_None _ _ _ Hf). lia.
  - left. destruct (main_abort cfg fs Hp) as (e & t & H & _ & Ht). eauto 8.
Qed.

End StopLemmas.

(** ** Reading traces *)

Section TraceLemmas.
Context {K : Carriers} {C : Collaborators}.

Lemma epochs_run_app (t1 t2 : list event) :
  epochs_run (t1 ++ t2) = (epochs_run t1 + epochs_run t2)%nat.
Proof. unfold epochs_run. by rewrite filter_app, length_app. Qed.

Lemma epochs_run_start (cfg : config) :
  epochs_run (prologue cfg ++ construction cfg) = 0%nat.
Proof. unfold construction. by destruct (is_BN cfg). Qed.

Lemma epochs_run_full (cfg : config) (k : nat) :
  epochs_run (full_epoch cfg k) = 1%nat.
Proof. unfold full_epoch, epsilon_print. by destruct (private cfg). Qed.

Lemma epochs_run_last (cfg : config) (k : nat) :
  epochs_run (last_epoch cfg k) = 1%nat.
Proof.
  unfold last_epoch, epsilon_print.
  by destruct (private cfg), (budget_fires cfg k).
Qed.

Lemma epochs_run_trace_at (cfg : config) (k : nat) :
  epochs_run (trace_at cfg k) = k.
Proof.
  induction k as [|k IH]; cbn [trace_at].
  - apply epochs_run_start.
  - rewrite epochs_run_app, IH, epochs_run_full. lia.
Qed.

(** The members of the trace of [k] full epochs. *)
Lemma elem_of_trace_at (cfg : config) (k : nat) (e : event) :
  e ∈ trace_at cfg k ->
  e ∈ prologue cfg ++ construction cfg
  \/ exists i, (i < k)%nat /\ e ∈ full_epoch cfg i.
Proof.
  induction k as [|k IH]; cbn [trace_at]; [auto|].
  rewrite elem_of_app. intros [H|H].
  - destruct (IH H) as [|(i & Hi & He)]; [auto|].
    right. exists i. split; [lia|done].
  - right. exists k. split; [lia|done].
Qed.

Lemma omap_trace_at {A} (f : event -> option A) (g : nat -> list A)
    (cfg : config) (k : nat) :
  omap f (prologue cfg ++ construction cfg) = [] ->
  (forall i, omap f (full_epoch cfg i) = g i) ->
  omap f (trace_at cfg k) = concat (map g (seq 0 k)).
Proof.
  intros H0 Hg. induction k as [|k IH]; cbn [trace_at]; [done|].
  rewrite omap_app, IH, Hg, seq_S, map_app, concat_app. cbn.
  by rewrite app_nil_r.
Qed.

Lemma concat_map_singleton {A B} (f : A -> B) (l : list A) :
  concat (map (fun x => [f x]) l) = map f l.
Proof. induction l as [|x l IH]; cbn; [done|]. by rewrite IH. Qed.

Lemma concat_map_nil {A B} (l : list A) :
  concat (map (fun _ => @nil B) l) = [].
Proof. induction l as [|x l IH]; cbn; done. Qed.

Lemma omap_start {A} (f : event -> option A) (cfg : config) :
  (forall s, f (EvSeed s) = None) ->
  (forall p, f (EvEnsureDir p) = None) ->
  (forall p, f (EvWandbInit p) = None) ->
  (forall d, f (EvScatterNormalization d) = None) ->
  (forall n, f (EvPrintNumParams n) = None) ->
  omap f (prologue cfg ++ construction cfg) = [].
Proof.
  intros H1 H2 H3 H4 H5. unfold prologue, construction.
  destruct (is_BN cfg); cbn; by rewrite ?H1, ?H2, ?H3, ?H4, ?H5.
Qed.

Lemma printed_trace_at (cfg : config) (k : nat) :
  omap printed_epsilon (trace_at cfg k)
  = if private cfg then map (epsilon_at cfg) (seq 0 k) else [].
Proof.
  destruct (private cfg) eqn:Hp.
  - rewrite <- concat_map_singleton. apply omap_trace_at.
    + by apply omap_start.
    + intros i. unfold full_epoch, epsilon_print. by rewrite Hp.
  - rewrite <- (concat_map_nil (seq 0 k)). apply omap_trace_at.
    + by apply omap_start.
    + intros i. unfold full_epoch, epsilon_print. by rewrite Hp.
Qed.

Lemma logged_trace_at (cfg : config) (k : nat) :
  omap logged (trace_at cfg k) = map (log_at cfg) (seq 0 k).
Proof.
  rewrite <- concat_map_singleton. apply omap_trace_at.
  - by apply omap_start.
  - intros i. unfold full_epoch, epsilon_print. by destruct (private cfg).
Qed.

Lemma saved_trace_at (cfg : config) (k : nat) :
  omap saved (trace_at cfg k)
  = map (fun i => (checkpoint_at cfg i, true, checkpoint_filename cfg))
      (seq 0 k).
Proof.
  rewrite <- concat_map_singleton. apply omap_trace_at.
  - by apply omap_start.
  - intros i. unfold full_epoch, epsilon_print. by destruct (private cfg).
Qed.

Lemma saved_last_epoch (cfg : config) (k : nat) :
  omap saved (last_epoch cfg k) = [].
Proof.
  unfold last_epoch, epsilon_print.
  by destruct (private cfg), (budget_fires cfg k).
Qed.

Lemma string_app_length (s1 s2 : string) :
  String.length (s1 +:+ s2) = (String.length s1 + String.length s2)%nat.
Proof.
  induction s1 as [|c s1 IH]; [done|].
  change (S (String.length (s1 +:+ s2))
          = S (String.length s1 + String.length s2)).
  by rewrite IH.
Qed.

(** The copy has a name of its own. *)
Lemma best_name_differs (cfg : config) :
  path_str (checkpoint_filename cfg)
  <> path_str (checkpoint_filename cfg) +:+ "_best".
Proof.
  intros H. apply (f_equal String.length) in H.
  rewrite string_app_length in H. cbn in H. lia.
Qed.

(** After [k >= 1] full epochs both checkpoint files hold the state of
    the last of them, and no other file has changed. *)
Lemma files_at_last (cfg : config) (fs : gmap string checkpoint) (k : nat) :
  files_at cfg fs (S k) !! path_str (checkpoint_filename cfg)
  = Some (checkpoint_at cfg k)
  /\ files_at cfg fs (S k) !! (path_str (checkpoint_filename cfg) +:+ "_best")
     = Some (checkpoint_at cfg k).
Proof.
  cbn [files_at]. split.
  - rewrite lookup_insert_ne, lookup_insert_eq; [done|].
    intros H. by apply (best_name_differs cfg).
  - by rewrite lookup_insert_eq.
Qed.

Lemma files_at_other (cfg : config) (fs : gmap string checkpoint) (k : nat)
    (name : string) :
  name <> path_str (checkpoint_filename cfg) ->
  name <> path_str (checkpoint_filename cfg) +:+ "_best" ->
  files_at cfg fs k !! name = fs !! name.
Proof.
  intros H1 H2. induction k as [|k IH]; cbn [files_at]; [done|].
  by rewrite !lookup_insert_ne.
Qed.

End TraceLemmas.

(** ** Properties of a run *)

Section Properties.
Context {K : Carriers} {C : Collaborators}.

Lemma printed_last_epoch (cfg : config) (k : nat) :
  omap printed_epsilon (last_epoch cfg k)
  = if private cfg then [epsilon_at cfg k] else [].
Proof.
  unfold last_epoch, epsilon_print.
  by destruct (private cfg), (budget_fires cfg k).
Qed.

Lemma logged_last_epoch (cfg : config) (k : nat) :
  omap logged (last_epoch cfg k)
  = if budget_fires cfg k then [] else [log_at cfg k].
Proof.
  unfold last_epoch, epsilon_print.
  by destruct (private cfg), (budget_fires cfg k).
Qed.

Lemma elem_of_logged (t : list event) (r : log_record) :
  EvLog r ∈ t <-> r ∈ omap logged t.
Proof.
  rewrite list_elem_of_omap. split.
  - intros H. by exists (EvLog r).
  - intros (e & He & Hr). destruct e; cbn in Hr; try done.
    by injection Hr as ->.
Qed.

Lemma elem_of_map {A B} (f : A -> B) (l : list A) (y : B) :
  y ∈ map f l -> exists x, y = f x.
Proof.
  rewrite list_elem_of_In, in_map_iff. intros (x & <- & _). by exists x.
Qed.

(** The records a run logs are those of its epochs, in order. *)
Lemma logged_run (cfg : config) (fs : gmap string checkpoint) :
  exists m, (m <= epochs_run (run_trace (main cfg fs)))%nat
    /\ omap logged (run_trace (main cfg fs)) = map (log_at cfg) (seq 0 m)
    /\ (private cfg = false -> m = epochs_run (run_trace (main cfg fs))).
Proof.
  destruct (main_cases cfg fs)
    as [(e & t & _ & -> & Ht)|[(j & _ & _ & Hs & _ & ->)|(_ & _ & ->)]];
    cbn [run_trace abort].
  - exists 0%nat. destruct Ht as [-> | ->].
    + split; [cbn; lia|]. split; [done|]. by intros _.
    + rewrite epochs_run_start. split; [lia|]. split; [|done].
      by apply omap_start.
  - rewrite omap_app, logged_trace_at, logged_last_epoch, epochs_run_app,
      epochs_run_trace_at, epochs_run_last.
    destruct (budget_fires cfg j) eqn:Hb.
    + exists j. rewrite app_nil_r. split; [lia|]. split; [done|].
      intros Hp. by rewrite (budget_needs_noise _ _ Hp) in Hb.
    + exists (S j). rewrite seq_S, map_app. split; [lia|]. split; [done|].
      intros; lia.
  - exists (Z.to_nat (epochs cfg)).
    rewrite logged_trace_at, epochs_run_trace_at. done.
Qed.

(** The records logged and the checkpoints saved are those of epochs in
    which no rule, respectively not the budget rule, has fired. *)
Lemma logged_run_quiet (cfg : config) (fs : gmap string checkpoint) :
  exists m,
    omap logged (run_trace (main cfg fs)) = map (log_at cfg) (seq 0 m)
    /\ forall i, (i < m)%nat -> budget_fires cfg i = false.
Proof.
  destruct (main_cases cfg fs)
    as [(e & t & _ & -> & Ht)|[(j & _ & _ & _ & Hq & ->)|(_ & Hq & ->)]];
    cbn [run_trace abort].
  - exists 0%nat. split; [|intros; lia].
    destruct Ht as [-> | ->]; [done|]. by apply omap_start.
  - rewrite omap_app, logged_trace_at, logged_last_epoch.
    assert (Hb : forall i, (i < j)%nat -> budget_fires cfg i = false).
    { intros i Hi. specialize (Hq i Hi). unfold stops in Hq.
      by apply orb_false_elim in Hq as [? _]. }
    destruct (budget_fires cfg j) eqn:Hj.
    + exists j. by rewrite app_nil_r.
    + exists (S j). rewrite seq_S, map_app. split; [done|].
      intros i Hi. destruct (decide (i = j)) as [->|]; [done|]. apply Hb. lia.
  - exists (Z.to_nat (epochs cfg)). split; [apply logged_trace_at|].
    intros i Hi. specialize (Hq i Hi). unfold stops in Hq.
    by apply orb_false_elim in Hq as [? _].
Qed.

Lemma saved_run_quiet (cfg : config) (fs : gmap string checkpoint) :
  exists n,
    omap saved (run_trace (main cfg fs))
    = map (fun k => (checkpoint_at cfg k, true, checkpoint_filename cfg))
        (seq 0 n)
    /\ forall i, (i < n)%nat -> stops cfg i = false.
Proof.
  destruct (main_cases cfg fs)
    as [(e & t & _ & -> & Ht)|[(j & _ & _ & _ & Hq & ->)|(_ & Hq & ->)]];
    cbn [run_trace abort].
  - exists 0%nat. split; [|intros; lia].
    destruct Ht as [-> | ->]; [done|]. by apply omap_start.
  - exists j. by rewrite omap_app, saved_trace_at, saved_last_epoch, app_nil_r.
  - exists (Z.to_nat (epochs cfg)). split; [apply saved_trace_at|done].
Qed.

(** C1.  When [noise_multiplier > 0], every epoch that is run prints the
    privacy cost computed from the world it leaves behind: the epsilon of
    [get_privacy_spent] at the sum of [rdp_norm] and
    [get_renyi_divergence(sample_rate, noise_multiplier)] times the
    engine's step count, where [rdp_norm] is the cost returned by
    [scatter_normalization] when [input_norm == "BN"] (the sum is the
    vector library's [+]) and the integer 0 otherwise (the sum is
    [0 + rdp_sgd]).  Every record logged carries the cost of its epoch. *)
Theorem reported_epsilon (cfg : config) (fs : gmap string checkpoint) :
  num_gt (noise_multiplier cfg) (num_of_int 0) = true ->
  let r := main cfg fs in
  let cost (k : nat) :=
    let w := world_after cfg (S k) in
    let sgd :=
      rdp_mul_int
        (get_renyi_divergence (engine_sample_rate w)
           (engine_noise_multiplier w))
        (engine_steps w) in
    fst (get_privacy_spent
           (if bool_decide (input_norm cfg = Some "BN"%string)
            then
              rdp_add
                (snd (scatter_normalization (train_loader0 cfg)
                        (scattering_of cfg) (K_of cfg) (the_device cfg)
                        (train_len (the_data cfg)) (train_len (the_data cfg))
                        (bn_noise_multiplier cfg) ORDERS (save_dir cfg)))
                sgd
            else int_add_rdp 0 sgd)) in
  omap printed_epsilon (run_trace r)
  = map cost (seq 0 (epochs_run (run_trace r)))
  /\ forall rec, EvLog rec ∈ run_trace r ->
       lg_epsilon rec = Some (cost (Z.to_nat (lg_epoch rec))).
Proof.
  intros Hp r cost. fold (private cfg) in Hp.
  assert (Hcost : forall k, cost k = epsilon_at cfg k).
  { intros k. subst cost. cbv beta zeta.
    unfold epsilon_at, epsilon_of, rdp_sgd, rdp_norm, is_BN, normalization.
    by destruct (bool_decide (input_norm cfg = Some "BN"%string)). }
  assert (Hmap : forall l, map cost l = map (epsilon_at cfg) l)
    by (intros l; by apply map_ext).
  clearbody cost. subst r.
  split.
  - rewrite Hmap.
    destruct (main_cases cfg fs)
      as [(e & t & _ & -> & Ht)|[(j & _ & _ & _ & _ & ->)|(_ & _ & ->)]];
      cbn [run_trace abort].
    + destruct Ht as [-> | ->]; [done|].
      rewrite epochs_run_start. by apply omap_start.
    + rewrite omap_app, printed_trace_at, printed_last_epoch, epochs_run_app,
        epochs_run_trace_at, epochs_run_last, Hp.
      replace (j + 1)%nat with (S j) by lia. by rewrite seq_S, map_app.
    + by rewrite printed_trace_at, epochs_run_trace_at, Hp.
  - intros rec Hrec. rewrite Hcost.
    apply elem_of_logged in Hrec.
    destruct (logged_run cfg fs) as (m & _ & Hm & _).
    rewrite Hm in Hrec. apply elem_of_map in Hrec as (i & ->).
    cbn [lg_epsilon lg_epoch log_at].
    by rewrite Hp, Nat2Z.id.
Qed.

(** C6.  When [noise_multiplier > 0] is false, as it is for a multiplier
    of zero, no epsilon is computed: none is printed, every epoch that is
    run logs a record and every record carries [None]; the run never
    returns at the budget check, and once the checks before the loop have
    passed it ends by the plateau rule or after all [epochs] epochs. *)
Theorem no_noise_no_epsilon (cfg : config) (fs : gmap string checkpoint) :
  num_gt (noise_multiplier cfg) (num_of_int 0) = false ->
  let r := main cfg fs in
  omap printed_epsilon (run_trace r) = []
  /\ length (omap logged (run_trace r)) = epochs_run (run_trace r)
  /\ (forall rec, EvLog rec ∈ run_trace r -> lg_epsilon rec = None)
  /\ run_outcome r <> Returned BudgetExhausted
  /\ (preflight cfg = true ->
      (run_outcome r = Returned Plateau
       /\ (epochs_run (run_trace r) <= Z.to_nat (epochs cfg))%nat)
      \/ (run_outcome r = Returned EndOfMain
          /\ epochs_run (run_trace r) = Z.to_nat (epochs cfg))).
Proof.
  intros Hp r. fold (private cfg) in Hp.
  destruct (logged_run cfg fs) as (m & _ & Hm & Hlen).
  specialize (Hlen Hp). fold r in Hm, Hlen.
  split; [|split; [|split; [|split]]].
  - subst r.
    destruct (main_cases cfg fs)
      as [(e & t & _ & -> & Ht)|[(j & _ & _ & _ & _ & ->)|(_ & _ & ->)]];
      cbn [run_trace abort].
    + destruct Ht as [-> | ->]; [done|]. by apply omap_start.
    + by rewrite omap_app, printed_trace_at, printed_last_epoch, Hp.
    + by rewrite printed_trace_at, Hp.
  - by rewrite Hm, length_map, length_seq.
  - intros rec Hrec. apply elem_of_logged in Hrec. rewrite Hm in Hrec.
    apply elem_of_map in Hrec as (i & ->).
    cbn [lg_epsilon log_at]. by rewrite Hp.
  - subst r.
    destruct (main_cases cfg fs)
      as [(e & t & _ & -> & _)|[(j & _ & _ & _ & _ & ->)|(_ & _ & ->)]];
      cbn [run_outcome abort]; try done.
    unfold stop_site. by rewrite (budget_needs_noise _ _ Hp).
  - intros Hpre. subst r.
    destruct (main_cases cfg fs)
      as [(e & t & Hf & _)|[(j & _ & Hj & _ & _ & ->)|(_ & _ & ->)]];
      cbn [run_outcome run_trace]; [congruence| |].
    + left. unfold stop_site. rewrite (budget_needs_noise _ _ Hp).
      rewrite epochs_run_app, epochs_run_trace_at, epochs_run_last.
      split; [done|lia].
    + right. by rewrite epochs_run_trace_at.
Qed.

End Properties.

(** ** The two stopping rules *)

Section Stopping.
Context {K : Carriers} {C : Collaborators}.

Lemma last_epoch_at_budget (cfg : config) (k : nat) :
  budget_fires cfg k = true ->
  last_epoch cfg k
  = epoch_head cfg k ++ [EvPrintEpsilon (epsilon_at cfg k) (epsilon2_at cfg k)].
Proof.
  intros Hb. unfold last_epoch, epsilon_print. rewrite Hb.
  apply andb_prop in Hb as [-> _]. by rewrite app_nil_r.
Qed.


(** The locals while accuracy stays at or below its value of epoch [P]. *)
Lemma locals_after_peak (cfg : config) (P j : nat) :
  num_gt (test_acc_at cfg P) (fst (locals_at cfg P)) = true ->
  (forall i, (1 <= i <= j)%nat ->
     num_gt (test_acc_at cfg (P + i)) (test_acc_at cfg P) = false) ->
  locals_at cfg (S (P + j)) = (test_acc_at cfg P, Z.of_nat j).
Proof.
  intros Hpeak. induction j as [|j IH]; intros Hflat.
  - rewrite Nat.add_0_r. cbn [locals_at]. unfold plateau_update.
    by rewrite Hpeak.
  - replace (P + S j)%nat with (S (P + j)) by lia.
    cbn [locals_at]. cbn [locals_at] in IH.
    rewrite IH by (intros; apply Hflat; lia).
    unfold plateau_update. cbn [fst snd].
    replace (S (P + j)) with (P + S j)%nat by lia.
    rewrite Hflat by lia. f_equal. lia.
Qed.

(** With [early_stop=False] no run returns at the plateau check. *)
Lemma no_plateau_return (cfg : config) (fs : gmap string checkpoint) :
  early_stop cfg = false -> run_outcome (main cfg fs) <> Returned Plateau.
Proof.
  intros He.
  destruct (main_cases cfg fs)
    as [(e & t & _ & -> & _)|[(j & _ & _ & Hs & _ & ->)|(_ & _ & ->)]];
    cbn [run_outcome abort]; try done.
  intros [= Hsite]. apply stop_site_plateau in Hsite as [_ Hf]; [|done].
  by rewrite plateau_disabled in Hf.
Qed.

(** C4.  With early stopping enabled, let the held-out accuracy of epoch
    [P] improve on the best so far (which is 0 before the first epoch,
    line 154) and let none of the twenty following epochs improve on it.  Then no epoch after [P + 20] is run; and when
    the run reaches epoch [P], the budget rule does not fire in epochs
    [P] to [P + 20] and [epochs] leaves room for them, [main] returns at
    the plateau check of epoch [P + 20], a normal return.  With early
    stopping disabled no run returns at the plateau check. *)
Theorem plateau_stop (cfg : config) (fs : gmap string checkpoint) (P : nat) :
  early_stop cfg = true ->
  num_gt (test_acc_at cfg P) (fst (locals_at cfg P)) = true ->
  (forall j, (1 <= j <= 20)%nat ->
     num_gt (test_acc_at cfg (P + j)) (test_acc_at cfg P) = false) ->
  let r := main cfg fs in
  (epochs_run (run_trace r) <= P + 21)%nat
  /\ (preflight cfg = true ->
      (P + 20 < Z.to_nat (epochs cfg))%nat ->
      (forall i, (i < P)%nat -> stops cfg i = false) ->
      (forall i, (P <= i <= P + 20)%nat -> budget_fires cfg i = false) ->
      run_outcome r = Returned Plateau
      /\ epochs_run (run_trace r) = (P + 21)%nat
      /\ exists t, run_trace r
                   = t ++ epoch_head cfg (P + 20) ++ epsilon_print cfg (P + 20)
                     ++ [EvLog (log_at cfg (P + 20)); EvPrintPlateau])
  /\ (forall (cfg' : config) (fs' : gmap string checkpoint),
         early_stop cfg' = false ->
         run_outcome (main cfg' fs') <> Returned Plateau).
Proof.
  intros Hes Hpeak Hflat r. subst r.
  assert (Hloc : forall j, (1 <= j <= 20)%nat ->
            locals_at cfg (P + j) = (test_acc_at cfg P, Z.of_nat (j - 1))).
  { intros j Hj. replace (P + j)%nat with (S (P + (j - 1))) by lia.
    apply locals_after_peak; [done|]. intros; apply Hflat; lia. }
  assert (Hpl : forall j, (1 <= j <= 20)%nat ->
            plateau_fires cfg (P + j) = bool_decide (j = 20%nat)).
  { intros j Hj. unfold plateau_fires. rewrite Hloc by done. cbn [fst snd].
    rewrite Hflat, Hes by done. cbn. rewrite andb_true_r.
    case_bool_decide; [apply Z.leb_le|apply Z.leb_gt]; lia. }
  assert (Hfire : stops cfg (P + 20) = true).
  { unfold stops. rewrite Hpl by lia. rewrite bool_decide_eq_true_2 by done.
    apply orb_true_r. }
  split; [|split; [|intros; by apply no_plateau_return]].
  - destruct (main_cases cfg fs)
      as [(e & t & _ & -> & Ht)|[(j & _ & _ & _ & Hb & ->)|(_ & Hn & ->)]];
      cbn [run_trace abort].
    + destruct Ht as [-> | ->]; [|rewrite epochs_run_start; lia].
      change (epochs_run (prologue cfg)) with 0%nat. lia.
    + rewrite epochs_run_app, epochs_run_trace_at, epochs_run_last.
      destruct (decide (P + 20 < j)%nat) as [Hlt|]; [|lia].
      rewrite (Hb _ Hlt) in Hfire. done.
    + rewrite epochs_run_trace_at.
      destruct (decide (P + 20 < Z.to_nat (epochs cfg))%nat) as [Hlt|]; [|lia].
      rewrite (Hn _ Hlt) in Hfire. done.
  - intros Hpre Hroom Hreach Hbudget.
    assert (Hquiet : forall i, (0 <= i < P + 20)%nat -> stops cfg i = false).
    { intros i Hi. destruct (decide (i < P)%nat) as [|Hge]; [by apply Hreach|].
      unfold stops. rewrite Hbudget by lia. cbn.
      destruct (decide (i = P)) as [->|Hne].
      - unfold plateau_fires. by rewrite Hpeak.
      - replace i with (P + (i - P))%nat by lia. rewrite Hpl by lia.
        apply bool_decide_eq_false. lia. }
    rewrite (main_run cfg fs Hpre).
    rewrite (first_stop_at cfg _ 0 (P + 20)) by (done || lia).
    cbn [run_outcome run_trace]. unfold stop_site.
    rewrite Hbudget by lia. split; [done|]. split.
    + rewrite epochs_run_app, epochs_run_trace_at, epochs_run_last. lia.
    + unfold last_epoch. rewrite Hbudget by lia.
      by exists (trace_at cfg (P + 20)).
Qed.

End Stopping.

(** ** Checks before the loop, checkpoints and names *)

Section Configuration.
Context {K : Carriers} {C : Collaborators}.

(** C5.  Poisson sampling together with a logical batch larger than the
    mini-batch, or together with augmentation, makes [main] raise at
    lines 70-76: nothing has been built or trained and no file written.
    The exception is an [AssertionError] unless [mini_batch_size] is 0. *)
Theorem poisson_rejected (cfg : config) (fs : gmap string checkpoint) :
  sample_batches cfg = true ->
  mini_batch_size cfg < batch_size cfg \/ augment cfg = true ->
  exists e,
    main cfg fs
    = {| run_outcome := Raised e; run_files := fs;
         run_trace := prologue cfg |}
    /\ (mini_batch_size cfg <> 0 -> e = AssertionError)
    /\ epochs_run (prologue cfg) = 0%nat
    /\ omap saved (prologue cfg) = []
    /\ existsb built_model (prologue cfg) = false.
Proof.
  intros Hs Hor. unfold main, abort. rewrite Hs. cbn [andb].
  destruct (mini_batch_size cfg =? 0) eqn:H0.
  { apply Z.eqb_eq in H0. exists ZeroDivisionError. by repeat split. }
  exists AssertionError.
  destruct (batch_size cfg mod mini_batch_size cfg =? 0) eqn:Hm;
    cbn [negb]; [|by repeat split].
  destruct (n_acc_steps cfg =? 1) eqn:Hn; cbn [negb]; [|by repeat split].
  destruct (augment cfg) eqn:Ha; [by repeat split|].
  destruct Hor as [Hlt|]; [|done]. exfalso.
  apply Z.eqb_eq in Hm, Hn. apply Z.eqb_neq in H0. unfold n_acc_steps in Hn.
  pose proof (Z.div_mod (batch_size cfg) (mini_batch_size cfg) H0). lia.
Qed.

(** C8, as the code has it.  With [mini_batch_size] zero the run stops at
    line 70 on a [ZeroDivisionError].  Otherwise, when [batch_size] is not
    a multiple of [mini_batch_size] the assertion of line 70 fails, before
    anything is built or trained; when it is, [n_acc_steps] is the exact
    quotient and every call of [train] receives it. *)
Theorem batch_multiple_check (cfg : config) (fs : gmap string checkpoint) :
  (mini_batch_size cfg = 0 ->
   main cfg fs = abort ZeroDivisionError fs (prologue cfg))
  /\ (mini_batch_size cfg <> 0 ->
      ~ Z.divide (mini_batch_size cfg) (batch_size cfg) ->
      main cfg fs = abort AssertionError fs (prologue cfg)
      /\ epochs_run (prologue cfg) = 0%nat
      /\ existsb built_model (prologue cfg) = false)
  /\ (mini_batch_size cfg <> 0 ->
      Z.divide (mini_batch_size cfg) (batch_size cfg) ->
      n_acc_steps cfg * mini_batch_size cfg = batch_size cfg
      /\ forall n, EvTrain n ∈ run_trace (main cfg fs) ->
           n = batch_size cfg / mini_batch_size cfg).
Proof.
  split; [|split].
  - intros H0. unfold main. by rewrite H0.
  - intros H0 Hnd. unfold main.
    rewrite (proj2 (Z.eqb_neq _ _) H0).
    destruct (batch_size cfg mod mini_batch_size cfg =? 0) eqn:Hm; [|done].
    exfalso. apply Hnd. apply Z.eqb_eq in Hm. by apply Z.mod_divide.
  - intros H0 Hd. split.
    + unfold n_acc_steps. destruct Hd as [q Hq]. rewrite Hq.
      by rewrite Z.div_mul.
    + intros n Hn.
      destruct (main_cases cfg fs)
        as [(e & t & _ & Hr & Ht)|[(j & _ & _ & _ & _ & Hr)|(_ & _ & Hr)]];
        rewrite Hr in Hn; cbn [run_trace abort] in Hn.
      * assert (Hn' : EvTrain n ∈ prologue cfg ++ construction cfg)
          by (destruct Ht as [-> | ->]; [apply elem_of_app; by left|done]).
        unfold prologue, construction in Hn'.
        destruct (is_BN cfg); cbn in Hn';
          repeat (apply elem_of_cons in Hn' as [Hn'|Hn']; [done|]);
          by apply elem_of_nil in Hn'.
      * apply elem_of_app in Hn as [Hn|Hn].
        -- apply elem_of_trace_at in Hn as [Hn|(i & _ & Hn)].
           ++ unfold prologue, construction in Hn.
              destruct (is_BN cfg); cbn in Hn;
                repeat (apply elem_of_cons in Hn as [Hn|Hn]; [done|]);
                by apply elem_of_nil in Hn.
           ++ unfold full_epoch, epoch_head, epsilon_print in Hn.
              destruct (private cfg); cbn in Hn;
                repeat (apply elem_of_cons in Hn as [Hn|Hn];
                        [by (done || injection Hn as ->)|]);
                by apply elem_of_nil in Hn.
        -- unfold last_epoch, epoch_head, epsilon_print in Hn.
           destruct (private cfg), (budget_fires cfg j); cbn in Hn;
             repeat (apply elem_of_cons in Hn as [Hn|Hn];
                     [by (done || injection Hn as ->)|]);
             by apply elem_of_nil in Hn.
      * apply elem_of_trace_at in Hn as [Hn|(i & _ & Hn)].
        -- unfold prologue, construction in Hn.
           destruct (is_BN cfg); cbn in Hn;
             repeat (apply elem_of_cons in Hn as [Hn|Hn]; [done|]);
             by apply elem_of_nil in Hn.
        -- unfold full_epoch, epoch_head, epsilon_print in Hn.
           destruct (private cfg); cbn in Hn;
             repeat (apply elem_of_cons in Hn as [Hn|Hn];
                     [by (done || injection Hn as ->)|]);
             by apply elem_of_nil in Hn.
Qed.

(** The saves of a run are those of its first full epochs. *)
Lemma saved_run (cfg : config) (fs : gmap string checkpoint) :
  exists n,
    omap saved (run_trace (main cfg fs))
    = map (fun k => (checkpoint_at cfg k, true, checkpoint_filename cfg))
        (seq 0 n).
Proof.
  destruct (main_cases cfg fs)
    as [(e & t & _ & -> & Ht)|[(j & _ & _ & _ & _ & ->)|(_ & _ & ->)]];
    cbn [run_trace abort].
  - exists 0%nat. destruct Ht as [-> | ->]; [done|]. by apply omap_start.
  - exists j. by rewrite omap_app, saved_trace_at, saved_last_epoch, app_nil_r.
  - eexists. apply saved_trace_at.
Qed.

(** C7, as the code has it.  Every epoch that runs to its end, and no
    other, saves a checkpoint: the saves of a run are those of epochs
    [0, 1, ..., n-1] in order, each holding epoch number [k+1], the model
    tag, the model and optimizer state of the world after epoch [k] and
    the current and best accuracy, and each made with [is_best=True].
    The epoch in which a stopping rule returns saves nothing, so [n] is
    one less than the number of epochs trained when the run ends by a
    rule.  After the last save both the checkpoint file and its
    [_best] copy hold the state of epoch [n-1]. *)
Theorem checkpoint_every_full_epoch (cfg : config)
    (fs : gmap string checkpoint) :
  let r := main cfg fs in
  let n := length (omap saved (run_trace r)) in
  omap saved (run_trace r)
  = map (fun k =>
           ({| ck_epoch := Z.of_nat k + 1;
               ck_model := "scatternet";
               ck_state_dict := model_state_dict (world_after cfg (S k));
               ck_test_acc := test_acc_at cfg k;
               ck_best_acc := fst (locals_at cfg (S k));
               ck_optimizer := optimizer_state_dict (world_after cfg (S k)) |},
            true, checkpoint_filename cfg))
      (seq 0 n)
  /\ match run_outcome r with
     | Returned EndOfMain => epochs_run (run_trace r) = n
     | Returned _ => epochs_run (run_trace r) = S n
     | Raised _ => epochs_run (run_trace r) = 0%nat /\ n = 0%nat
     end
  /\ forall k, n = S k ->
       run_files r !! path_str (checkpoint_filename cfg)
       = Some (checkpoint_at cfg k)
       /\ run_files r !! (path_str (checkpoint_filename cfg) +:+ "_best")
          = Some (checkpoint_at cfg k).
Proof.
  intros r n. subst n r.
  destruct (main_cases cfg fs)
    as [(e & t & _ & -> & Ht)|[(j & _ & _ & Hs & _ & ->)|(_ & _ & ->)]];
    cbn [run_trace run_outcome run_files abort].
  - assert (Hsv : omap saved t = []).
    { destruct Ht as [-> | ->]; [done|]. by apply omap_start. }
    assert (Her : epochs_run t = 0%nat).
    { destruct Ht as [-> | ->]; [done|]. apply epochs_run_start. }
    rewrite Hsv, Her. cbn. repeat split; done.
  - rewrite omap_app, saved_trace_at, saved_last_epoch, app_nil_r,
      length_map, length_seq, epochs_run_app, epochs_run_trace_at,
      epochs_run_last.
    split; [done|]. split.
    + unfold stop_site. destruct (budget_fires cfg j); lia.
    + intros k ->. apply files_at_last.
  - rewrite saved_trace_at, length_map, length_seq, epochs_run_trace_at.
    split; [done|]. split; [done|].
    intros k ->. apply files_at_last.
Qed.

(** The files of a run other than the two checkpoint files are as they
    were. *)
Lemma main_files_other (cfg : config) (fs : gmap string checkpoint)
    (name : string) :
  name <> path_str (checkpoint_filename cfg) ->
  name <> path_str (checkpoint_filename cfg) +:+ "_best" ->
  run_files (main cfg fs) !! name = fs !! name.
Proof.
  intros H1 H2.
  destruct (main_cases cfg fs)
    as [(e & t & _ & -> & _)|[(j & _ & _ & _ & _ & ->)|(_ & _ & ->)]];
    cbn [run_files abort]; [done| |]; by apply files_at_other.
Qed.

(** C10.  The run name is ["cifar10_scatternet_"] followed by the noise
    multiplier and the logged configuration names the dataset
    ["cifar10"], whatever the dataset argument; the checkpoint path is
    built from [out_dir], the noise multiplier and the seed alone, so two
    configurations that agree on these three save every checkpoint to
    the same path and touch no other file. *)
Theorem names_ignore_dataset (cfg1 cfg2 : config)
    (fs1 fs2 : gmap string checkpoint) :
  out_dir cfg1 = out_dir cfg2 ->
  noise_multiplier cfg1 = noise_multiplier cfg2 ->
  seed cfg1 = seed cfg2 ->
  run_name cfg1 = "cifar10_scatternet_" +:+ num_str (noise_multiplier cfg1)
  /\ wc_dataset (wp_config (run_params cfg1)) = "cifar10"%string
  /\ wp_group (run_params cfg1) = run_name cfg2
  /\ checkpoint_filename cfg1 = checkpoint_filename cfg2
  /\ (forall st b f,
        EvSaveCheckpoint st b f ∈ run_trace (main cfg1 fs1)
        \/ EvSaveCheckpoint st b f ∈ run_trace (main cfg2 fs2) ->
        f = path_div (path_div (Path (out_dir cfg1))
                        ("cifar10_scatternet_"
                         +:+ num_str (noise_multiplier cfg1)))
              ("model_" +:+ pretty (seed cfg1)))
  /\ (forall name,
        name <> path_str (checkpoint_filename cfg1) ->
        name <> path_str (checkpoint_filename cfg1) +:+ "_best" ->
        run_files (main cfg1 fs1) !! name = fs1 !! name
        /\ run_files (main cfg2 fs2) !! name = fs2 !! name).
Proof.
  intros Ho Hn Hs.
  assert (Hname : run_name cfg1 = run_name cfg2)
    by (unfold run_name; by rewrite Hn).
  assert (Hfile : checkpoint_filename cfg1 = checkpoint_filename cfg2)
    by (unfold checkpoint_filename, run_dir; by rewrite Ho, Hname, Hs).
  split; [done|]. split; [done|]. split; [done|]. split; [done|]. split.
  - assert (Hsaved : forall cfg fs st b f,
              EvSaveCheckpoint st b f ∈ run_trace (main cfg fs) ->
              f = checkpoint_filename cfg).
    { intros cfg fs st b f Hin.
      assert (Hin' : (st, b, f) ∈ omap saved (run_trace (main cfg fs))).
      { apply list_elem_of_omap. by exists (EvSaveCheckpoint st b f). }
      destruct (saved_run cfg fs) as (n & Hn').
      rewrite Hn' in Hin'. apply elem_of_map in Hin' as (k & Hk).
      by injection Hk. }
    intros st b f [H|H]; apply Hsaved in H; [done|]. by rewrite H, <- Hfile.
  - intros name H1 H2. split; [by apply main_files_other|].
    rewrite Hfile in H1, H2. by apply main_files_other.
Qed.

End Configuration.

(** ** The [--early_stop] switch *)

Section Switch.
Context {K : Carriers} {C : Collaborators}.

(** [--early_stop] is the only entry of the parser that writes
    [early_stop]. *)
Lemma find_argument_early_stop (word : string) (a : argument) :
  find_argument word = Some a ->
  (word = "--early_stop"%string
   /\ a = switch_arg "--early_stop" "early_stop" store_false)
  \/ (word <> "--early_stop"%string
      /\ arg_dest a <> "early_stop"%string
      /\ arg_flag a = word).
Proof.
  unfold find_argument, parser.
  cbn [List.find arg_flag option_arg switch_arg].
  repeat match goal with
         | |- context [String.eqb ?f word] =>
             destruct (String.eqb f word) eqn:E;
             [apply String.eqb_eq in E; subst word; intros [= <-];
              first [left; split; reflexivity
                    |right; split; [discriminate|];
                     split; [discriminate|reflexivity]]
             |clear E]
         end.
  discriminate.
Qed.

Lemma defaults_early_stop : defaults !! "early_stop"%string = Some (VBool true).
Proof. reflexivity. Qed.

Lemma starts_with_dash_early_stop (value : string) :
  starts_with_dash value = false -> value <> "--early_stop"%string.
Proof. intros H ->. discriminate. Qed.

(** Parsing leaves [early_stop] as it found it unless the switch occurs. *)
Lemma parse_known_early_stop (n : nat) (argv : list string)
    (ns ns' : gmap string pyval) (b : bool) :
  (length argv <= n)%nat ->
  parse_known argv ns = Some ns' ->
  ns !! "early_stop"%string = Some (VBool b) ->
  ns' !! "early_stop"%string
  = Some (VBool (b && negb (bool_decide ("--early_stop"%string ∈ argv)))).
Proof.
  revert argv ns b. induction n as [|n IH]; intros argv ns b Hlen Hparse Hns.
  { destruct argv; [|cbn in Hlen; lia]. cbn in Hparse. injection Hparse as <-.
    rewrite Hns. by rewrite andb_true_r. }
  destruct argv as [|word rest].
  { cbn in Hparse. injection Hparse as <-. rewrite Hns.
    by rewrite andb_true_r. }
  cbn [parse_known] in Hparse. cbn [length] in Hlen.
  destruct (find_argument word) as [a|] eqn:Hfind; [|done].
  apply find_argument_early_stop in Hfind as [[-> ->]|(Hword & Hdest & _)].
  - cbn [arg_action_of switch_arg arg_dest] in Hparse.
    rewrite (IH rest (<["early_stop"%string := VBool false]> ns) false);
      [|lia|done|by rewrite lookup_insert_eq].
    cbn [andb]. rewrite bool_decide_eq_true_2 by apply list_elem_of_here.
    by rewrite andb_false_r.
  - assert (Hmem : forall l, bool_decide ("--early_stop"%string ∈ word :: l)
                             = bool_decide ("--early_stop"%string ∈ l)).
    { intros l. apply bool_decide_ext. rewrite elem_of_cons.
      split; [intros [?|?]; [congruence|done]|by right]. }
    rewrite Hmem.
    destruct (arg_action_of a).
    + destruct rest as [|value rest']; [done|].
      destruct (starts_with_dash value) eqn:Hdash; [done|].
      destruct (convert a value) as [v|]; [|done].
      assert (Hmem' : bool_decide ("--early_stop"%string ∈ value :: rest')
                      = bool_decide ("--early_stop"%string ∈ rest')).
      { apply bool_decide_ext. rewrite elem_of_cons.
        pose proof (starts_with_dash_early_stop _ Hdash).
        split; [intros [?|?]; [congruence|done]|by right]. }
      rewrite Hmem'.
      apply (IH rest' (<[arg_dest a := v]> ns));
        [cbn in Hlen; lia|done|by rewrite lookup_insert_ne].
    + apply (IH rest (<[arg_dest a := VBool true]> ns));
        [lia|done|by rewrite lookup_insert_ne].
    + apply (IH rest (<[arg_dest a := VBool false]> ns));
        [lia|done|by rewrite lookup_insert_ne].
Qed.

(** [main] receives the namespace's [early_stop]. *)
Lemma config_of_early_stop (ns : gmap string pyval) (cfg : config) :
  config_of ns = Some cfg ->
  ns !! "early_stop"%string = Some (VBool (early_stop cfg)).
Proof.
  unfold config_of. intros H.
  repeat match type of H with
         | mbind _ ?m = Some _ =>
             let E := fresh "E" in
             destruct m eqn:E; cbn [mbind option_bind] in H; [|discriminate]
         end.
  injection H as <-. cbn [early_stop].
  match goal with
  | E : ns !! "early_stop"%string ≫= as_bool = Some _ |- _ =>
      destruct (ns !! "early_stop"%string) as [[]|]; cbn in E; try discriminate;
      by injection E as ->
  end.
Qed.

(** C9.  On a command line that parses, [early_stop] is [False] exactly
    when the word [--early_stop] occurs in it, and [True] when it does
    not; with the word present no run returns at the plateau check. *)
Theorem early_stop_flag (argv : list string) (cfg : config) :
  cli_config argv = Some cfg ->
  early_stop cfg = negb (bool_decide ("--early_stop"%string ∈ argv))
  /\ ("--early_stop"%string ∈ argv ->
      early_stop cfg = false
      /\ forall fs, run_outcome (main cfg fs) <> Returned Plateau)
  /\ ("--early_stop"%string ∉ argv -> early_stop cfg = true).
Proof.
  unfold cli_config, parse_args. intros H.
  destruct (parse_known argv defaults) as [ns|] eqn:Hparse; [|done].
  cbn in H. apply config_of_early_stop in H.
  pose proof (parse_known_early_stop (length argv) argv defaults ns true
                (le_n _) Hparse defaults_early_stop) as Hns.
  rewrite H in Hns. injection Hns as Hes. cbn [andb] in Hes.
  split; [done|]. split.
  - intros Hin. rewrite bool_decide_eq_true_2 in Hes by done.
    split; [done|]. intros fs. by apply no_plateau_return.
  - intros Hnot. by rewrite bool_decide_eq_false_2 in Hes.
Qed.

End Switch.

(** ** Accountant steps and parameter updates *)

Section Lockstep.
Context {K : Carriers} {C : Collaborators}.
Context {grad : Type}.

Implicit Types (st : engine_state grad) (gs : list grad).

Lemma train_pass_app (n : Z) gs1 gs2 st :
  train_pass n (gs1 ++ gs2) st = train_pass n gs2 (train_pass n gs1 st).
Proof. unfold train_pass. apply foldl_app. Qed.

(** Every sub-batch moves both counters or neither. *)
Lemma sub_batch_lockstep (n : Z) st (g : grad) :
  accountant_steps (sub_batch n st g) - accountant_steps st
  = Z.of_nat (length (updates (sub_batch n st g)))
    - Z.of_nat (length (updates st)).
Proof.
  unfold sub_batch. destruct (_ =? n); cbn; [|lia].
  rewrite length_app. cbn. lia.
Qed.

Lemma train_pass_lockstep (n : Z) gs st :
  accountant_steps (train_pass n gs st) - accountant_steps st
  = Z.of_nat (length (updates (train_pass n gs st)))
    - Z.of_nat (length (updates st)).
Proof.
  revert st. induction gs as [|g gs IH]; intros st; [cbn; lia|].
  change (train_pass n (g :: gs) st)
    with (train_pass n gs (sub_batch n st g)).
  pose proof (IH (sub_batch n st g)). pose proof (sub_batch_lockstep n st g).
  lia.
Qed.

(** Fewer sub-batches than a logical batch: they are accumulated. *)
Lemma train_pass_partial (n : Z) gs st :
  Z.of_nat (length (accumulated st) + length gs) < n ->
  train_pass n gs st
  = {| accumulated := accumulated st ++ gs;
       updates := updates st;
       accountant_steps := accountant_steps st |}.
Proof.
  revert st. induction gs as [|g gs IH]; intros st Hlt.
  - destruct st. cbn. by rewrite app_nil_r.
  - change (train_pass n (g :: gs) st)
      with (train_pass n gs (sub_batch n st g)).
    assert (Hsub : sub_batch n st g = virtual_step g st).
    { unfold sub_batch. cbn [virtual_step accumulated].
      rewrite length_app. cbn [length] in *.
      replace (_ =? n) with false; [done|]. symmetry. apply Z.eqb_neq. lia. }
    rewrite Hsub, IH.
    + cbn. by rewrite <- app_assoc.
    + cbn [virtual_step accumulated]. rewrite length_app.
      cbn [length] in *. lia.
Qed.

(** The sub-batches of one logical batch: one update, one step. *)
Lemma train_pass_logical_batch (n : Z) gs st :
  0 < n ->
  accumulated st = [] ->
  length gs = Z.to_nat n ->
  train_pass n gs st
  = {| accumulated := [];
       updates := updates st ++ [gs];
       accountant_steps := accountant_steps st + 1 |}.
Proof.
  intros Hn Hacc Hlen.
  destruct (decide (gs = [])) as [->|Hne]; [cbn in Hlen; lia|].
  destruct (exists_last Hne) as (gs' & g & ->).
  rewrite length_app in Hlen. cbn [length] in Hlen.
  rewrite train_pass_app.
  rewrite (train_pass_partial n gs' st) by (rewrite Hacc; cbn; lia).
  rewrite Hacc. cbn [app train_pass foldl].
  unfold sub_batch. cbn [virtual_step accumulated].
  rewrite length_app. cbn [length].
  replace (_ =? n) with true; [done|]. symmetry. apply Z.eqb_eq. lia.
Qed.

(** [m] logical batches. *)
Lemma train_pass_logical_batches (n : Z) (m : nat) gs st :
  0 < n ->
  accumulated st = [] ->
  length gs = (m * Z.to_nat n)%nat ->
  accumulated (train_pass n gs st) = []
  /\ length (updates (train_pass n gs st)) = (length (updates st) + m)%nat
  /\ accountant_steps (train_pass n gs st) = accountant_steps st + Z.of_nat m.
Proof.
  intros Hn. revert gs st. induction m as [|m IH]; intros gs st Hacc Hlen.
  - destruct gs; [|cbn in Hlen; lia]. cbn. repeat split; [done|lia..].
  - rewrite <- (take_drop (Z.to_nat n) gs), train_pass_app.
    rewrite (train_pass_logical_batch n (take (Z.to_nat n) gs) st);
      [|done|done|rewrite length_take; lia].
    destruct (IH (drop (Z.to_nat n) gs)
                {| accumulated := [];
                   updates := updates st ++ [take (Z.to_nat n) gs];
                   accountant_steps := accountant_steps st + 1 |})
      as (H1 & H2 & H3); [done|rewrite length_drop; lia|].
    rewrite H1, H2, H3. cbn. rewrite length_app. cbn.
    repeat split; lia.
Qed.

(** C3.  With a logical batch of [k * n] samples and mini-batches of [n],
    [n_acc_steps] is [k], and a pass over [m] logical batches, that is
    [m * k] physical sub-batches, applies [m] parameter updates and adds
    [m] to the step counter the accountant reads: one step for [k]
    sub-batches, not [k].  Over any pass at all, the counter and the
    number of updates move together. *)
Theorem accountant_counts_logical_batches (cfg : config) (k n : Z) (m : nat)
    (gs : list grad) (st : engine_state grad) :
  0 < k -> 0 < n ->
  batch_size cfg = k * n ->
  mini_batch_size cfg = n ->
  accumulated st = [] ->
  length gs = (m * Z.to_nat k)%nat ->
  let st' := train_pass (n_acc_steps cfg) gs st in
  n_acc_steps cfg = k
  /\ accountant_steps st' = accountant_steps st + Z.of_nat m
  /\ length (updates st') = (length (updates st) + m)%nat
  /\ accumulated st' = []
  /\ (m = 1%nat -> updates st' = updates st ++ [gs])
  /\ (forall (n_acc : Z) (gs0 : list grad) (st0 : engine_state grad),
        accountant_steps (train_pass n_acc gs0 st0) - accountant_steps st0
        = Z.of_nat (length (updates (train_pass n_acc gs0 st0)))
          - Z.of_nat (length (updates st0))).
Proof.
  intros Hk Hn Hbs Hmini Hacc Hlen st'. subst st'.
  assert (Hsteps : n_acc_steps cfg = k).
  { unfold n_acc_steps. rewrite Hbs, Hmini. apply Z.div_mul. lia. }
  rewrite Hsteps.
  destruct (train_pass_logical_batches k m gs st Hk Hacc Hlen)
    as (H1 & H2 & H3).
  split; [done|]. split; [done|]. split; [done|]. split; [done|]. split.
  - intros ->. rewrite train_pass_logical_batch; [done|done|done|lia].
  - intros. apply train_pass_lockstep.
Qed.

End Lockstep.

(** ** More on [save_checkpoint] and on the shape of a run *)

Section MoreProperties.
Context {K : Carriers} {C : Collaborators}.

Lemma best_suffix_differs (s : string) : s <> s +:+ "_best".
Proof.
  intros H. apply (f_equal String.length) in H.
  rewrite string_app_length in H. cbn in H. lia.
Qed.

(** X1.  [save_checkpoint] never fails: the file it copies is the one it
    has just written.  Afterwards the file holds the state; the [_best]
    copy holds it too when [is_best] is true and is as before when it is
    false; no other file changes. *)
Theorem save_checkpoint_effect (st : checkpoint) (is_best : bool)
    (f : path) (fs : gmap string checkpoint) :
  exists fs',
    save_checkpoint st is_best f fs = Some fs'
    /\ fs' !! path_str f = Some st
    /\ fs' !! (path_str f +:+ "_best")
       = (if is_best then Some st else fs !! (path_str f +:+ "_best"))
    /\ forall name,
         name <> path_str f -> name <> path_str f +:+ "_best" ->
         fs' !! name = fs !! name.
Proof.
  pose proof (best_suffix_differs (path_str f)) as Hne.
  destruct is_best.
  - rewrite save_checkpoint_best. eexists. split; [done|].
    split; [by rewrite lookup_insert_ne, lookup_insert_eq|].
    split; [by rewrite lookup_insert_eq|].
    intros name H1 H2. by rewrite !lookup_insert_ne.
  - unfold save_checkpoint, torch_save. eexists. split; [done|].
    split; [by rewrite lookup_insert_eq|].
    split; [by rewrite lookup_insert_ne|].
    intros name H1 H2. by rewrite lookup_insert_ne.
Qed.

(** A run with passing checks does not raise. *)
Lemma main_returns (cfg : config) (fs : gmap string checkpoint) :
  preflight cfg = true ->
  exists site, run_outcome (main cfg fs) = Returned site.
Proof.
  intros Hp. rewrite (main_run cfg fs Hp).
  destruct (first_stop_from cfg 0 (Z.to_nat (epochs cfg))); cbn; eauto.
Qed.

(** X2.  The assertions and the integer arithmetic of [main] (lines
    70-76 and 147) are all evaluated before the first epoch, and the copy
    made by [save_checkpoint] never fails: [main] raises one of its own
    exceptions exactly when one of these checks fails, the exception is
    then an [AssertionError], a [ZeroDivisionError] or an
    [OverflowError], no epoch has been trained and no file written. *)
Theorem main_raises_only_before_loop (cfg : config)
    (fs : gmap string checkpoint) :
  (preflight cfg = false <-> exists e, run_outcome (main cfg fs) = Raised e)
  /\ forall e, run_outcome (main cfg fs) = Raised e ->
       (e = AssertionError \/ e = ZeroDivisionError \/ e = OverflowError)
       /\ run_files (main cfg fs) = fs
       /\ epochs_run (run_trace (main cfg fs)) = 0%nat
       /\ omap saved (run_trace (main cfg fs)) = [].
Proof.
  split.
  - split.
    + intros Hp. destruct (main_abort cfg fs Hp) as (e & t & -> & _).
      by exists e.
    + intros [e He]. destruct (preflight cfg) eqn:Hp; [|done].
      destruct (main_returns cfg fs Hp) as [site Hs]. congruence.
  - intros e He. destruct (preflight cfg) eqn:Hp.
    { destruct (main_returns cfg fs Hp) as [site Hs]. congruence. }
    destruct (main_abort cfg fs Hp) as (e' & t & Hm & He' & Ht).
    rewrite Hm in *. cbn [run_outcome run_files run_trace abort] in *.
    injection He as <-. split; [done|]. split; [done|].
    destruct Ht as [-> | ->].
    + split; reflexivity.
    + split; [apply epochs_run_start|by apply omap_start].
Qed.

(** Every call of [train] in a run receives [n_acc_steps]. *)
Lemma trained_with_run (cfg : config) (fs : gmap string checkpoint) :
  omap trained_with (run_trace (main cfg fs))
  = map (fun _ => n_acc_steps cfg)
      (seq 0 (epochs_run (run_trace (main cfg fs)))).
Proof.
  assert (Hat : forall k, omap trained_with (trace_at cfg k)
                          = map (fun _ => n_acc_steps cfg) (seq 0 k)).
  { intros k. rewrite <- concat_map_singleton. apply omap_trace_at.
    - by apply omap_start.
    - intros i. unfold full_epoch, epsilon_print. by destruct (private cfg). }
  destruct (main_cases cfg fs)
    as [(e & t & _ & -> & Ht)|[(j & _ & _ & _ & _ & ->)|(_ & _ & ->)]];
    cbn [run_trace abort].
  - destruct Ht as [-> | ->]; [done|].
    rewrite epochs_run_start. by apply omap_start.
  - rewrite omap_app, Hat, epochs_run_app, epochs_run_trace_at,
      epochs_run_last.
    replace (j + 1)%nat with (S j) by lia. rewrite seq_S, map_app.
    f_equal. unfold last_epoch, epsilon_print.
    by destruct (private cfg), (budget_fires cfg j).
  - by rewrite Hat, epochs_run_trace_at.
Qed.

(** X3.  A run with Poisson sampling that gets past the checks has
    [batch_size = mini_batch_size], no augmentation, and hands
    [n_acc_steps = 1] to every call of [train]. *)
Theorem poisson_accepted (cfg : config) (fs : gmap string checkpoint) :
  sample_batches cfg = true ->
  (forall e, run_outcome (main cfg fs) <> Raised e) ->
  batch_size cfg = mini_batch_size cfg
  /\ mini_batch_size cfg <> 0
  /\ augment cfg = false
  /\ forall n, n ∈ omap trained_with (run_trace (main cfg fs)) -> n = 1.
Proof.
  intros Hs Hno.
  assert (Hp : preflight cfg = true).
  { destruct (preflight cfg) eqn:Hp; [done|].
    destruct (main_abort cfg fs Hp) as (e & t & Hm & _).
    exfalso. apply (Hno e). by rewrite Hm. }
  pose proof Hp as Hp'. unfold preflight in Hp'. rewrite Hs in Hp'.
  cbn [andb] in Hp'.
  apply andb_prop in Hp' as [Hp' _]. apply andb_prop in Hp' as [Hp' _].
  apply andb_prop in Hp' as [Hp' Ha].
  apply andb_prop in Hp' as [Hp' Hn]. apply andb_prop in Hp' as [H0 Hm].
  apply negb_true_iff in H0, Ha. apply negb_true_iff, negb_false_iff in Hn.
  apply Z.eqb_neq in H0. apply Z.eqb_eq in Hm, Hn.
  assert (Hbs : batch_size cfg = mini_batch_size cfg).
  { unfold n_acc_steps in Hn.
    pose proof (Z.div_mod (batch_size cfg) (mini_batch_size cfg) H0). lia. }
  split; [done|]. split; [done|]. split; [done|].
  intros n Hin. rewrite trained_with_run in Hin.
  apply elem_of_map in Hin as (i & ->).
  unfold n_acc_steps. rewrite Hbs. by apply Z.div_same.
Qed.

(** X4.  No run trains more than [epochs] epochs; with [epochs] zero or
    negative and passing checks [main] builds everything, trains nothing,
    writes nothing and returns normally. *)
Theorem epochs_bound (cfg : config) (fs : gmap string checkpoint) :
  (epochs_run (run_trace (main cfg fs)) <= Z.to_nat (epochs cfg))%nat
  /\ (epochs cfg <= 0 -> preflight cfg = true ->
      main cfg fs
      = {| run_outcome := Returned EndOfMain; run_files := fs;
           run_trace := prologue cfg ++ construction cfg |}).
Proof.
  split.
  - destruct (main_cases cfg fs)
      as [(e & t & _ & -> & Ht)|[(j & _ & Hj & _ & _ & ->)|(_ & _ & ->)]];
      cbn [run_trace abort].
    + destruct Ht as [-> | ->]; [|rewrite epochs_run_start; lia].
      change (epochs_run (prologue cfg)) with 0%nat. lia.
    + rewrite epochs_run_app, epochs_run_trace_at, epochs_run_last. lia.
    + by rewrite epochs_run_trace_at.
  - intros He Hp. rewrite (main_run cfg fs Hp).
    by replace (Z.to_nat (epochs cfg)) with 0%nat by lia.
Qed.

Lemma trace_at_prefix (cfg : config) (k : nat) :
  exists t, trace_at cfg k = prologue cfg ++ t.
Proof.
  induction k as [|k [t IH]]; cbn [trace_at]; [eauto|].
  rewrite IH, <- app_assoc. eauto.
Qed.

(** X5.  Seeding, the creation of the run directory and [wandb.init]
    come first in every run, also in one that the checks then reject;
    [wandb.init] is called exactly once, with [run_params], and the
    [out_path] it reports is the file every checkpoint is saved to. *)
Theorem wandb_before_checks (cfg : config) (fs : gmap string checkpoint) :
  (exists t,
      run_trace (main cfg fs)
      = [EvSeed (seed cfg); EvEnsureDir (run_dir cfg);
         EvWandbInit (run_params cfg)] ++ t)
  /\ omap initialised (run_trace (main cfg fs)) = [run_params cfg]
  /\ forall st b f,
       (st, b, f) ∈ omap saved (run_trace (main cfg fs)) ->
       f = wc_out_path (wp_config (run_params cfg)).
Proof.
  assert (Hat : forall k, omap initialised (trace_at cfg k) = [run_params cfg]).
  { induction k as [|k IH]; cbn [trace_at].
    - unfold prologue, construction. by destruct (is_BN cfg).
    - rewrite omap_app, IH. unfold full_epoch, epsilon_print.
      by destruct (private cfg). }
  split; [|split].
  - destruct (main_cases cfg fs)
      as [(e & t & _ & -> & Ht)|[(j & _ & _ & _ & _ & ->)|(_ & _ & ->)]];
      cbn [run_trace abort].
    + destruct Ht as [-> | ->]; [by exists []|by exists (construction cfg)].
    + destruct (trace_at_prefix cfg j) as [t ->]. rewrite <- app_assoc. eauto.
    + apply trace_at_prefix.
  - destruct (main_cases cfg fs)
      as [(e & t & _ & -> & Ht)|[(j & _ & _ & _ & _ & ->)|(_ & _ & ->)]];
      cbn [run_trace abort].
    + destruct Ht as [-> | ->]; [done|].
      unfold prologue, construction. by destruct (is_BN cfg).
    + rewrite omap_app, Hat. unfold last_epoch, epsilon_print.
      by destruct (private cfg), (budget_fires cfg j).
    + apply Hat.
  - intros st b f Hin. destruct (saved_run cfg fs) as (n & Hn).
    rewrite Hn in Hin. apply elem_of_map in Hin as (k & Hk).
    by injection Hk.
Qed.

(** X6.  The records logged are those of epochs [0, 1, 2, ...] in order.
    An epoch ended by the plateau rule is logged and not checkpointed, an
    epoch ended by the budget rule is neither: the run has one record
    more than checkpoints exactly when it returns at the plateau check,
    and one trained epoch more than records exactly when it returns at
    the budget check. *)
Theorem logs_and_checkpoints (cfg : config) (fs : gmap string checkpoint) :
  let r := main cfg fs in
  let logs := omap logged (run_trace r) in
  let saves := omap saved (run_trace r) in
  map lg_epoch logs = map Z.of_nat (seq 0 (length logs))
  /\ length logs
     = (length saves
        + match run_outcome r with Returned Plateau => 1 | _ => 0 end)%nat
  /\ epochs_run (run_trace r)
     = (length logs
        + match run_outcome r with
          | Returned BudgetExhausted => 1
          | _ => 0
          end)%nat.
Proof.
  intros r logs saves. subst r logs saves.
  assert (Hep : forall m, map lg_epoch (map (log_at cfg) (seq 0 m))
                          = map Z.of_nat (seq 0 m)).
  { intros m. rewrite map_map. by apply map_ext. }
  destruct (main_cases cfg fs)
    as [(e & t & _ & -> & Ht)|[(j & _ & _ & Hs & _ & ->)|(_ & _ & ->)]];
    cbn [run_trace run_outcome abort].
  - assert (omap logged t = [] /\ omap saved t = [] /\ epochs_run t = 0%nat)
      as (-> & -> & ->).
    { destruct Ht as [-> | ->]; [done|].
      split; [by apply omap_start|].
      split; [by apply omap_start|apply epochs_run_start]. }
    done.
  - rewrite !omap_app, logged_trace_at, saved_trace_at, logged_last_epoch,
      saved_last_epoch, epochs_run_app, epochs_run_trace_at, epochs_run_last,
      app_nil_r.
    unfold stop_site. destruct (budget_fires cfg j).
    + rewrite app_nil_r, Hep, !length_map, !length_seq. split; [done|]. lia.
    + replace (map (log_at cfg) (seq 0 j) ++ [log_at cfg j])
        with (map (log_at cfg) (seq 0 (S j))) by (by rewrite seq_S, map_app).
      rewrite Hep, !length_map, !length_seq. split; [done|]. lia.
  - rewrite logged_trace_at, saved_trace_at, epochs_run_trace_at, Hep,
      !length_map, !length_seq. split; [done|]. lia.
Qed.

(** X7.  With a budget configured and [noise_multiplier > 0], every
    epsilon that is logged is below the budget ([epsilon >= max_epsilon]
    is false for it), and so is the epsilon of every epoch of which a
    checkpoint is saved. *)
Theorem logged_epsilon_below_budget (cfg : config)
    (fs : gmap string checkpoint) (budget : num) :
  num_gt (noise_multiplier cfg) (num_of_int 0) = true ->
  max_epsilon cfg = Some budget ->
  (forall rec, rec ∈ omap logged (run_trace (main cfg fs)) ->
     exists eps, lg_epsilon rec = Some eps /\ num_ge eps budget = false)
  /\ forall st b f,
       (st, b, f) ∈ omap saved (run_trace (main cfg fs)) ->
       num_ge (epsilon_at cfg (Z.to_nat (ck_epoch st - 1))) budget = false.
Proof.
  intros Hp Hmax. fold (private cfg) in Hp.
  assert (Hb : forall i, budget_fires cfg i
                         = num_ge (epsilon_at cfg i) budget).
  { intros i. unfold budget_fires, budget_reached. by rewrite Hp, Hmax. }
  split.
  - intros rec Hin. destruct (logged_run_quiet cfg fs) as (m & Hm & Hq).
    rewrite Hm in Hin. apply list_elem_of_In, in_map_iff in Hin
      as (i & <- & Hi). apply in_seq in Hi.
    exists (epsilon_at cfg i). cbn [lg_epsilon log_at]. rewrite Hp.
    split; [done|]. rewrite <- Hb. apply Hq. lia.
  - intros st b f Hin. destruct (saved_run_quiet cfg fs) as (n & Hn & Hq).
    rewrite Hn in Hin. apply list_elem_of_In, in_map_iff in Hin
      as (i & Hi & Hin). apply in_seq in Hin. injection Hi as <- _ _.
    cbn [ck_epoch checkpoint_at checkpoint_of].
    replace (Z.to_nat (Z.of_nat i + 1 - 1)) with i by lia.
    rewrite <- Hb. specialize (Hq i ltac:(lia)). unfold stops in Hq.
    by apply orb_false_elim in Hq as [? _].
Qed.

(** X8.  A run that returns at the plateau check has early stopping
    enabled and has trained at least twenty epochs. *)
Theorem plateau_not_before_20 (cfg : config) (fs : gmap string checkpoint) :
  run_outcome (main cfg fs) = Returned Plateau ->
  early_stop cfg = true
  /\ (20 <= epochs_run (run_trace (main cfg fs)))%nat.
Proof.
  destruct (main_cases cfg fs)
    as [(e & t & _ & -> & Ht)|[(j & _ & _ & Hs & _ & ->)|(_ & _ & ->)]];
    cbn [run_trace run_outcome abort]; try done.
  intros [= Hsite]. apply stop_site_plateau in Hsite as [_ Hf]; [|done].
  split.
  - destruct (early_stop cfg) eqn:He; [done|].
    by rewrite plateau_disabled in Hf.
  - rewrite epochs_run_app, epochs_run_trace_at, epochs_run_last.
    destruct (decide (j < 19)%nat) as [Hlt|]; [|lia].
    by rewrite plateau_needs_20 in Hf.
Qed.

(** The tracked best accuracy is exceeded by no accuracy seen so far,
    when [>] is irreflexive and transitive. *)
Lemma best_acc_bounds (cfg : config) :
  (forall x, num_gt x x = false) ->
  (forall x y z, num_gt x y = true -> num_gt y z = true -> num_gt x z = true) ->
  forall k j, (j < k)%nat ->
    num_gt (test_acc_at cfg j) (fst (locals_at cfg k)) = false.
Proof.
  intros Hirr Htr. induction k as [|k IH]; intros j Hj; [lia|].
  cbn [locals_at]. unfold plateau_update.
  destruct (num_gt (test_acc_at cfg k) (fst (locals_at cfg k))) eqn:Hk;
    cbn [fst].
  - destruct (decide (j = k)) as [->|Hne]; [apply Hirr|].
    destruct (num_gt (test_acc_at cfg j) (test_acc_at cfg k)) eqn:Hjk; [|done].
    rewrite <- (IH j ltac:(lia)). symmetry. by apply (Htr _ _ _ Hjk).
  - destruct (decide (j = k)) as [->|Hne]; [done|]. apply IH. lia.
Qed.

(** X9.  When the comparison [>] of accuracies is irreflexive and
    transitive, the [best_acc] stored in a checkpoint is a running
    maximum: no held-out accuracy of its epoch or of an earlier one
    exceeds it, and it is the accuracy of one of these epochs or the
    initial 0. *)
Theorem checkpoint_best_acc_is_maximum (cfg : config)
    (fs : gmap string checkpoint) :
  (forall x, num_gt x x = false) ->
  (forall x y z, num_gt x y = true -> num_gt y z = true -> num_gt x z = true) ->
  forall st b f,
    (st, b, f) ∈ omap saved (run_trace (main cfg fs)) ->
    (forall j, Z.of_nat j < ck_epoch st ->
       num_gt (test_acc_at cfg j) (ck_best_acc st) = false)
    /\ (ck_best_acc st = num_of_int 0
        \/ exists j, Z.of_nat j < ck_epoch st
                     /\ ck_best_acc st = test_acc_at cfg j).
Proof.
  intros Hirr Htr st b f Hin. destruct (saved_run cfg fs) as (n & Hn).
  rewrite Hn in Hin. apply elem_of_map in Hin as (k & Hk).
  injection Hk as -> _ _.
  cbn [ck_epoch ck_best_acc checkpoint_at checkpoint_of].
  split.
  - intros j Hj. apply best_acc_bounds; [done|done|lia].
  - clear Hn. induction k as [|k IH].
    + cbn [locals_at]. unfold plateau_update. destruct (num_gt _ _); cbn [fst].
      * right. exists 0%nat. split; [lia|done].
      * by left.
    + cbn [locals_at]. unfold plateau_update.
      destruct (num_gt (test_acc_at cfg (S k)) _); cbn [fst].
      * right. exists (S k). split; [lia|done].
      * destruct IH as [IH|(j & Hj & IH)]; [by left|].
        right. exists j. split; [lia|done].
Qed.

(** X13.  [main] returns at the budget check only when a budget is
    configured, [noise_multiplier > 0] holds and the epsilon it has just
    printed has reached the budget. *)
Theorem budget_return_sound (cfg : config) (fs : gmap string checkpoint) :
  run_outcome (main cfg fs) = Returned BudgetExhausted ->
  num_gt (noise_multiplier cfg) (num_of_int 0) = true
  /\ exists budget eps,
       max_epsilon cfg = Some budget
       /\ last (omap printed_epsilon (run_trace (main cfg fs))) = Some eps
       /\ num_ge eps budget = true.
Proof.
  destruct (main_cases cfg fs)
    as [(e & t & _ & -> & Ht)|[(j & _ & _ & Hs & _ & ->)|(_ & _ & ->)]];
    cbn [run_trace run_outcome abort]; try done.
  intros [= Hsite]. apply stop_site_budget in Hsite.
  pose proof Hsite as Hb. unfold budget_fires, budget_reached in Hb.
  apply andb_prop in Hb as [Hp Hb]. split; [done|].
  destruct (max_epsilon cfg) as [budget|]; [|done].
  exists budget, (epsilon_at cfg j). split; [done|]. split; [|done].
  rewrite omap_app, printed_last_epoch, Hp. apply last_snoc.
Qed.

End MoreProperties.

(** ** More on the command line *)

Section MoreSwitches.
Context {K : Carriers} {C : Collaborators}.

Lemma find_argument_In (word : string) (a : argument) :
  find_argument word = Some a -> In a parser /\ arg_flag a = word.
Proof.
  unfold find_argument. intros H. apply find_some in H as [Hin Heq].
  split; [done|]. by apply String.eqb_eq.
Qed.

(** Where a key of the parsed namespace comes from: it is as it was, or
    an occurrence of an option with that destination has written it. *)
Lemma parse_known_lookup (n : nat) (argv : list string)
    (ns ns' : gmap string pyval) (k : string) :
  (length argv <= n)%nat ->
  parse_known argv ns = Some ns' ->
  ns' !! k = ns !! k
  \/ exists a v, In a parser /\ arg_dest a = k /\ writes a v
                 /\ ns' !! k = Some v.
Proof.
  revert argv ns. induction n as [|n IH]; intros argv ns Hlen Hparse.
  { destruct argv; [|cbn in Hlen; lia]. cbn in Hparse. injection Hparse as <-.
    by left. }
  destruct argv as [|word rest].
  { cbn in Hparse. injection Hparse as <-. by left. }
  cbn [parse_known] in Hparse. cbn [length] in Hlen.
  destruct (find_argument word) as [a|] eqn:Hfind; [|done].
  apply find_argument_In in Hfind as [Hin _].
  assert (Hstep : forall rest' v,
            (length rest' <= n)%nat -> writes a v ->
            parse_known rest' (<[arg_dest a := v]> ns) = Some ns' ->
            ns' !! k = ns !! k
            \/ exists a v, In a parser /\ arg_dest a = k /\ writes a v
                           /\ ns' !! k = Some v).
  { intros rest' v Hl Hw Hp.
    destruct (IH rest' _ Hl Hp) as [Heq|?]; [|by right].
    destruct (decide (arg_dest a = k)) as [Hd|Hd].
    - right. exists a, v. rewrite Heq, <- Hd, lookup_insert_eq. done.
    - left. by rewrite Heq, lookup_insert_ne. }
  destruct (arg_action_of a) eqn:Hact.
  - destruct rest as [|value rest']; [done|].
    destruct (starts_with_dash value); [done|].
    destruct (convert a value) as [v|] eqn:Hv; [|done].
    apply (Hstep rest' v); [cbn in Hlen; lia| |done].
    unfold writes. rewrite Hact. eauto.
  - apply (Hstep rest (VBool true)); [lia| |done].
    unfold writes. by rewrite Hact.
  - apply (Hstep rest (VBool false)); [lia| |done].
    unfold writes. by rewrite Hact.
Qed.

Ltac parser_entries Hin tac :=
  unfold parser in Hin; cbn [In] in Hin;
  repeat (destruct Hin as [<-|Hin]; [tac|]); try destruct Hin.

Lemma defaults_dests (a : argument) :
  In a parser -> is_Some (defaults !! arg_dest a).
Proof. intros Hin. parser_entries Hin ltac:(by eexists). Qed.

Lemma dom_defaults_from (l : list argument) (k : string) :
  is_Some
    ((foldr (fun a ns => <[arg_dest a := default_value a]> ns)
        (∅ : gmap string pyval) l) !! k)
  <-> k ∈ map arg_dest l.
Proof.
  induction l as [|a l IH]; cbn [foldr map].
  - rewrite lookup_empty, elem_of_nil. split; [by intros [? ?]|done].
  - rewrite elem_of_cons. destruct (decide (arg_dest a = k)) as [<-|Hne].
    + rewrite lookup_insert_eq. split; [by left|by eexists].
    + rewrite lookup_insert_ne, IH by done.
      split; [by right|by intros [?|?]].
Qed.

(** The destinations of the parser are the parameters of [main], in
    another order. *)
Lemma parser_dests_are_parameters :
  Forall (fun k => k ∈ main_parameters) (map arg_dest parser)
  /\ Forall (fun k => k ∈ map arg_dest parser) main_parameters.
Proof.
  split; apply (bool_decide_unpack _); vm_compute; exact I.
Qed.

Lemma defaults_keys (k : string) :
  is_Some (defaults !! k) <-> k ∈ main_parameters.
Proof.
  unfold defaults. rewrite dom_defaults_from.
  destruct parser_dests_are_parameters as [H1 H2].
  rewrite Forall_forall in H1, H2. split; [apply H1|apply H2].
Qed.

(** The value a conversion [conv] of [config_of] finds under key [k]. *)
Lemma parsed_key {T} (k : string) (conv : pyval -> option T)
    (argv : list string) (ns : gmap string pyval) :
  is_Some (defaults !! k ≫= conv) ->
  (forall a v, In a parser -> arg_dest a = k -> writes a v ->
     is_Some (conv v)) ->
  parse_args argv = Some ns ->
  is_Some (ns !! k ≫= conv).
Proof.
  intros Hd Hw Hparse.
  destruct (parse_known_lookup (length argv) argv defaults ns k (le_n _) Hparse)
    as [-> |(a & v & Hin & Hk & Hwr & ->)]; [done|].
  cbn. by apply (Hw a v).
Qed.

Ltac written_value Hd Hw :=
  cbn [arg_dest option_arg switch_arg] in Hd; try discriminate Hd;
  unfold writes, convert in Hw;
  cbn [arg_action_of arg_type_of arg_choices option_arg switch_arg in_choices]
    in Hw;
  lazymatch type of Hw with
  | ex _ => let word := fresh "word" in destruct Hw as [word Hw]
  | _ => idtac
  end;
  repeat match type of Hw with
         | (if ?b then _ else _) = Some _ =>
             destruct b eqn:?; [|discriminate Hw]
         | _ <$> ?o = Some _ => destruct o; cbn in Hw; [|discriminate Hw]
         end;
  try (injection Hw as <-); try (rewrite Hw).

Ltac key_ok :=
  apply parsed_key;
  [by eexists
  |let a := fresh "a" in let v := fresh "v" in
   let Hin := fresh "Hin" in let Hd := fresh "Hd" in let Hw := fresh "Hw" in
   intros a v Hin Hd Hw;
   parser_entries Hin ltac:(written_value Hd Hw; by eexists)].

(** X10.  On every command line that parses, the namespace has exactly
    the names of [main]'s parameters, each with a value of the kind its
    [add_argument] line gives, so that line 236 calls [main] with every
    parameter bound once. *)
Theorem cli_binds_every_parameter (argv : list string)
    (ns : gmap string pyval) :
  parse_args argv = Some ns ->
  (forall k, is_Some (ns !! k) <-> k ∈ main_parameters)
  /\ exists cfg, config_of ns = Some cfg.
Proof.
  intros Hparse. split.
  - intros k. rewrite <- defaults_keys.
    destruct (parse_known_lookup (length argv) argv defaults ns k (le_n _)
                Hparse)
      as [-> |(a & v & Hin & <- & _ & ->)]; [done|].
    split; [intros _; by apply defaults_dests|by eexists].
  - unfold config_of.
    repeat match goal with
           | |- context [ns !! ?k ≫= ?conv] =>
               let H := fresh "H" in
               let x := fresh "x" in
               assert (is_Some (ns !! k ≫= conv)) as [x H]
                 by (revert Hparse; key_ok);
               rewrite H; cbn [mbind option_bind]; clear H
           end.
    by eexists.
Qed.

(** What [main] receives under each name is what the namespace holds. *)
Lemma config_of_lookup (ns : gmap string pyval) (cfg : config) :
  config_of ns = Some cfg ->
  ns !! "dataset"%string ≫= or_none as_str = Some (dataset cfg)
  /\ ns !! "optim"%string ≫= as_str = Some (optim cfg)
  /\ ns !! "input_norm"%string ≫= or_none as_str = Some (input_norm cfg)
  /\ ns !! "augment"%string ≫= as_bool = Some (augment cfg)
  /\ ns !! "use_scattering"%string ≫= as_bool = Some (use_scattering cfg)
  /\ ns !! "nesterov"%string ≫= as_bool = Some (nesterov cfg)
  /\ ns !! "sample_batches"%string ≫= as_bool = Some (sample_batches cfg).
Proof.
  unfold config_of. intros H.
  repeat match type of H with
         | mbind _ ?m = Some _ =>
             let E := fresh "E" in
             destruct m eqn:E; cbn [mbind option_bind] in H; [|discriminate]
         end.
  injection H as <-. cbn. repeat split; assumption.
Qed.

Lemma parsed_key_value (k : string) (P : pyval -> Prop)
    (argv : list string) (ns : gmap string pyval) :
  (exists v, defaults !! k = Some v /\ P v) ->
  (forall a v, In a parser -> arg_dest a = k -> writes a v -> P v) ->
  parse_args argv = Some ns ->
  exists v, ns !! k = Some v /\ P v.
Proof.
  intros Hd Hw Hparse.
  destruct (parse_known_lookup (length argv) argv defaults ns k (le_n _) Hparse)
    as [-> |(a & v & Hin & Hk & Hwr & ->)]; [done|].
  exists v. split; [done|]. by apply (Hw a v).
Qed.

Ltac chosen_word :=
  match goal with
  | H : bool_decide (_ ∈ _) = true |- _ =>
      apply bool_decide_eq_true in H;
      rewrite ?elem_of_cons, elem_of_nil in H;
      repeat (destruct H as [->|H]); [..|destruct H]
  end.

(** X11.  The parser's [choices] reach [main]: on every command line
    that parses, the dataset is [None] or one of [cifar10], [fmnist],
    [mnist]; the optimizer is [SGD] or [Adam], so the [else] of line 142
    is taken for [Adam] only; the normalization is [None], [GroupNorm]
    or [BN]. *)
Theorem cli_choices (argv : list string) (cfg : config) :
  cli_config argv = Some cfg ->
  dataset cfg ∈ [None; Some "cifar10"; Some "fmnist"; Some "mnist"]%string
  /\ optim cfg ∈ ["SGD"; "Adam"]%string
  /\ input_norm cfg ∈ [None; Some "GroupNorm"; Some "BN"]%string
  /\ (the_optimizer cfg = Adam (lr cfg) <-> optim cfg = "Adam"%string).
Proof.
  unfold cli_config. intros H.
  destruct (parse_args argv) as [ns|] eqn:Hparse; [|done]. cbn in H.
  apply config_of_lookup in H as (Hd & Ho & Hi & _).
  assert (Hds : exists v,
            ns !! "dataset"%string = Some v
            /\ v ∈ [VNone; VStr "cifar10"; VStr "fmnist"; VStr "mnist"]).
  { revert Hparse. apply parsed_key_value.
    - eexists. split; [reflexivity|]. apply list_elem_of_here.
    - intros a v Hin Hk Hw.
      parser_entries Hin ltac:(written_value Hk Hw; chosen_word;
                               rewrite !elem_of_cons; tauto). }
  assert (Hos : exists v, ns !! "optim"%string = Some v
                  /\ v ∈ [VStr "SGD"; VStr "Adam"]).
  { revert Hparse. apply parsed_key_value.
    - eexists. split; [reflexivity|]. apply list_elem_of_here.
    - intros a v Hin Hk Hw.
      parser_entries Hin ltac:(written_value Hk Hw; chosen_word;
                               rewrite !elem_of_cons; tauto). }
  assert (His : exists v, ns !! "input_norm"%string = Some v
                  /\ v ∈ [VNone; VStr "GroupNorm"; VStr "BN"]).
  { revert Hparse. apply parsed_key_value.
    - eexists. split; [reflexivity|]. apply list_elem_of_here.
    - intros a v Hin Hk Hw.
      parser_entries Hin ltac:(written_value Hk Hw; chosen_word;
                               rewrite !elem_of_cons; tauto). }
  destruct Hds as (vd & Hvd & Hind), Hos as (vo & Hvo & Hino),
    His as (vi & Hvi & Hini).
  rewrite Hvd in Hd. rewrite Hvo in Ho. rewrite Hvi in Hi.
  apply list_elem_of_In in Hind, Hino, Hini. cbn [In] in Hind, Hino, Hini.
  assert (Hopt : optim cfg = "SGD"%string \/ optim cfg = "Adam"%string).
  { destruct Hino as [<-|[<-|[]]]; cbn in Ho; injection Ho as <-; tauto. }
  split; [|split; [|split]].
  - destruct Hind as [<-|[<-|[<-|[<-|[]]]]]; cbn in Hd; injection Hd as <-;
      rewrite !elem_of_cons; tauto.
  - rewrite !elem_of_cons; tauto.
  - destruct Hini as [<-|[<-|[<-|[]]]]; cbn in Hi; injection Hi as <-;
      rewrite !elem_of_cons; tauto.
  - unfold the_optimizer.
    destruct Hopt as [-> | ->]; cbn; split; done.
Qed.

(** A [store_true] switch that no other entry shares. *)
Lemma parse_known_switch (fl d : string) (n : nat) (argv : list string)
    (ns ns' : gmap string pyval) (b : bool) :
  (forall word a, find_argument word = Some a ->
     (word = fl /\ a = switch_arg fl d store_true)
     \/ (word <> fl /\ arg_dest a <> d)) ->
  starts_with_dash fl = true ->
  (length argv <= n)%nat ->
  parse_known argv ns = Some ns' ->
  ns !! d = Some (VBool b) ->
  ns' !! d = Some (VBool (b || bool_decide (fl ∈ argv))).
Proof.
  intros Hfl Hdash.
  revert argv ns b. induction n as [|n IH]; intros argv ns b Hlen Hparse Hns.
  { destruct argv; [|cbn in Hlen; lia]. cbn in Hparse. injection Hparse as <-.
    rewrite Hns. by rewrite orb_false_r. }
  destruct argv as [|word rest].
  { cbn in Hparse. injection Hparse as <-. rewrite Hns.
    by rewrite orb_false_r. }
  cbn [parse_known] in Hparse. cbn [length] in Hlen.
  destruct (find_argument word) as [a|] eqn:Hfind; [|done].
  apply Hfl in Hfind as [[-> ->]|[Hword Hdest]].
  - cbn [arg_action_of switch_arg arg_dest] in Hparse.
    rewrite (IH rest (<[d := VBool true]> ns) true);
      [|lia|done|by rewrite lookup_insert_eq].
    cbn [orb]. rewrite bool_decide_eq_true_2 by apply list_elem_of_here.
    by rewrite orb_true_r.
  - assert (Hmem : forall l, bool_decide (fl ∈ word :: l)
                             = bool_decide (fl ∈ l)).
    { intros l. apply bool_decide_ext. rewrite elem_of_cons.
      split; [intros [?|?]; [congruence|done]|by right]. }
    rewrite Hmem.
    destruct (arg_action_of a).
    + destruct rest as [|value rest']; [done|].
      destruct (starts_with_dash value) eqn:Hv; [done|].
      destruct (convert a value) as [v|]; [|done].
      assert (Hmem' : bool_decide (fl ∈ value :: rest')
                      = bool_decide (fl ∈ rest')).
      { apply bool_decide_ext. rewrite elem_of_cons.
        split; [intros [?|?]; [congruence|done]|by right]. }
      rewrite Hmem'.
      apply (IH rest' (<[arg_dest a := v]> ns));
        [cbn in Hlen; lia|done|by rewrite lookup_insert_ne].
    + apply (IH rest (<[arg_dest a := VBool true]> ns));
        [lia|done|by rewrite lookup_insert_ne].
    + apply (IH rest (<[arg_dest a := VBool false]> ns));
        [lia|done|by rewrite lookup_insert_ne].
Qed.

Ltac only_switch :=
  let word := fresh "word" in let a := fresh "a" in
  intros word a; unfold find_argument, parser;
  cbn [List.find arg_flag option_arg switch_arg];
  repeat match goal with
         | |- context [String.eqb ?f word] =>
             let E := fresh "E" in
             destruct (String.eqb f word) eqn:E;
             [apply String.eqb_eq in E; subst word; intros [= <-];
              first [left; split; reflexivity
                    |right; split; discriminate]
             |clear E]
         end;
  discriminate.

(** X12.  On every command line that parses, each of [augment],
    [use_scattering], [nesterov] and [sample_batches] is [True] exactly
    when its switch occurs; left out, scattering and the three others are
    off. *)
Theorem cli_switches (argv : list string) (cfg : config) :
  cli_config argv = Some cfg ->
  augment cfg = bool_decide ("--augment"%string ∈ argv)
  /\ use_scattering cfg = bool_decide ("--use_scattering"%string ∈ argv)
  /\ nesterov cfg = bool_decide ("--nesterov"%string ∈ argv)
  /\ sample_batches cfg = bool_decide ("--sample_batches"%string ∈ argv).
Proof.
  unfold cli_config, parse_args. intros H.
  destruct (parse_known argv defaults) as [ns|] eqn:Hparse; [|done].
  cbn in H. apply config_of_lookup in H as (_ & _ & _ & Ha & Hu & Hn & Hs).
  rewrite (parse_known_switch "--augment" "augment" (length argv) argv
             defaults ns false ltac:(only_switch) eq_refl (le_n _) Hparse
             eq_refl) in Ha.
  rewrite (parse_known_switch "--use_scattering" "use_scattering"
             (length argv) argv defaults ns false ltac:(only_switch) eq_refl
             (le_n _) Hparse eq_refl) in Hu.
  rewrite (parse_known_switch "--nesterov" "nesterov" (length argv) argv
             defaults ns false ltac:(only_switch) eq_refl (le_n _) Hparse
             eq_refl) in Hn.
  rewrite (parse_known_switch "--sample_batches" "sample_batches"
             (length argv) argv defaults ns false ltac:(only_switch) eq_refl
             (le_n _) Hparse eq_refl) in Hs.
  cbn in Ha, Hu, Hn, Hs.
  injection Ha as <-. injection Hu as <-. injection Hn as <-.
  injection Hs as <-. done.
Qed.

End MoreSwitches.

(** ** The driver on concrete configurations *)

Import Demo.

(** With [input_norm="BN"] the normalization cost of the instance, 2, is
    added to the cost of the steps taken, [1, 2, 3, 4] after the four
    epochs. *)
Lemma reported_epsilon_demo :
  input_norm MoreDemo.poisson_ok_config = Some "BN"%string
  /\ omap printed_epsilon
       (run_trace (main MoreDemo.poisson_ok_config no_files))
     = [3; 4; 5; 6]
  /\ map (fun k => epsilon2_at MoreDemo.poisson_ok_config k) (seq 0 4)
     = [1; 2; 3; 4].
Proof.
  split; [reflexivity|]. split; [|reflexivity].
  destruct (reported_epsilon (C := demo) MoreDemo.poisson_ok_config
              no_files eq_refl)
    as [H _].
  rewrite H. vm_compute. reflexivity.
Defined.



(** No budget: accuracy peaks in epoch 5 and the run ends in epoch 25. *)
Lemma plateau_stop_demo :
  run_outcome (main (demo_config 1 None 100) no_files) = Returned Plateau
  /\ epochs_run (run_trace (main (demo_config 1 None 100) no_files))
     = 26%nat.
Proof.
  assert (Hreach : forall i, (i < 5)%nat ->
            stops (demo_config 1 None 100) i = false).
  { intros i Hi. do 5 (destruct i as [|i]; [reflexivity|]). lia. }
  assert (Hbudget : forall i, (5 <= i <= 5 + 20)%nat ->
            budget_fires (demo_config 1 None 100) i = false).
  { intros i _. reflexivity. }
  assert (Hflat : forall j, (1 <= j <= 20)%nat ->
            num_gt (test_acc_at (demo_config 1 None 100) (5 + j))
              (test_acc_at (demo_config 1 None 100) 5) = false).
  { intros j Hj. do 21 (destruct j as [|j]; [first [lia|reflexivity]|]). lia. }
  destruct (plateau_stop (C := demo) (demo_config 1 None 100) no_files 5
              eq_refl eq_refl Hflat)
    as (_ & H & _).
  destruct (H eq_refl ltac:(vm_compute; lia) Hreach Hbudget) as (H1 & H2 & _).
  split; [exact H1|exact H2].
Defined.

(** Poisson sampling with eight accumulation steps is refused. *)
Lemma poisson_rejected_demo :
  sample_batches poisson_config = true
  /\ mini_batch_size poisson_config < batch_size poisson_config
  /\ run_outcome (main poisson_config no_files) = Raised AssertionError.
Proof.
  split; [reflexivity|]. split; [reflexivity|].
  destruct (poisson_rejected (C := demo) poisson_config no_files eq_refl
              (or_introl eq_refl))
    as (e & H & He & _).
  rewrite H. cbn [run_outcome]. f_equal. apply He. discriminate.
Defined.

(** Noise 0: nothing is printed and the budget of 3 ends nothing. *)
Lemma no_noise_no_epsilon_demo :
  omap printed_epsilon
    (run_trace (main (demo_config 0 (Some 3) 7) no_files)) = []
  /\ run_outcome (main (demo_config 0 (Some 3) 7) no_files)
     <> Returned BudgetExhausted.
Proof.
  destruct (no_noise_no_epsilon (C := demo) (demo_config 0 (Some 3) 7)
              no_files eq_refl)
    as (H1 & _ & _ & H2 & _).
  split; [exact H1|exact H2].
Defined.

(** Claim C7 as stated fails on the code: the third epoch of this run is
    trained and no checkpoint is written for it. *)
Lemma checkpoint_missing_for_last_epoch :
  epochs_run (run_trace (main (demo_config 1 (Some 3) 100) no_files)) = 3%nat
  /\ map (fun s => ck_epoch (fst (fst s)))
       (omap saved (run_trace (main (demo_config 1 (Some 3) 100) no_files)))
     = [1; 2].
Proof. vm_compute. split; reflexivity. Qed.

(** In the same run both files end with the state of the second epoch. *)
Lemma checkpoint_every_full_epoch_demo :
  run_files (main (demo_config 1 (Some 3) 100) no_files)
    !! "out/cifar10_scatternet_1/model_0_best"%string
  = Some (checkpoint_at (demo_config 1 (Some 3) 100) 1).
Proof.
  destruct (checkpoint_every_full_epoch (C := demo)
              (demo_config 1 (Some 3) 100) no_files)
    as (_ & _ & H).
  destruct (H 1%nat eq_refl) as [_ Hbest]. exact Hbest.
Defined.

(** Claim C8 as stated fails on the code: 2048 is no multiple of 0, and
    the run stops on a [ZeroDivisionError], not on the assertion. *)
Lemma zero_mini_batch_is_no_assertion :
  ~ Z.divide (mini_batch_size zero_mini_config) (batch_size zero_mini_config)
  /\ run_outcome (main zero_mini_config no_files) = Raised ZeroDivisionError
  /\ run_outcome (main zero_mini_config no_files) <> Raised AssertionError.
Proof.
  split; [|split; [reflexivity|discriminate]].
  intros [q Hq]. cbn in Hq. lia.
Qed.

(** 2048 = 8 * 256: eight accumulation steps. *)
Lemma batch_multiple_check_demo :
  n_acc_steps (demo_config 1 None 100) * 256 = 2048.
Proof.
  destruct (batch_multiple_check (C := demo) (demo_config 1 None 100)
              no_files)
    as (_ & _ & H).
  destruct (H ltac:(discriminate) (ex_intro _ 8 eq_refl)) as [Hn _].
  exact Hn.
Defined.

(** Eight sub-batches of 256 make one logical batch of 2048: one step. *)
Lemma one_step_for_eight_sub_batches :
  accountant_steps
    (train_pass (n_acc_steps (demo_config 1 None 100)) eight_sub_batches
       fresh_engine) = 1
  /\ updates
       (train_pass (n_acc_steps (demo_config 1 None 100)) eight_sub_batches
          fresh_engine) = [eight_sub_batches].
Proof.
  destruct (accountant_counts_logical_batches (demo_config 1 None 100)
              8 256 1 eight_sub_batches fresh_engine
              eq_refl eq_refl eq_refl eq_refl eq_refl eq_refl)
    as (_ & H1 & _ & _ & H2 & _).
  split; [exact H1|exact (H2 eq_refl)].
Defined.

(** [--early_stop] on the command line turns early stopping off. *)
Lemma early_stop_flag_demo :
  exists cfg,
    cli_config ["--early_stop"%string; "--epochs"%string; "30"%string]
    = Some cfg
    /\ early_stop cfg = false /\ epochs cfg = 30.
Proof.
  eexists. split; [vm_compute; reflexivity|].
  split; [|reflexivity].
  refine (proj1 (early_stop_flag (C := demo)
                   ["--early_stop"%string; "--epochs"%string; "30"%string]
                   _ _)).
  vm_compute. reflexivity.
Defined.

(** Without it early stopping stays on. *)
Lemma early_stop_default_demo :
  exists cfg, cli_config [] = Some cfg /\ early_stop cfg = true.
Proof. eexists. split; vm_compute; reflexivity. Qed.

(** A run on mnist and a run on cifar10 share their checkpoint path. *)
Lemma names_ignore_dataset_demo :
  dataset mnist_config <> dataset (demo_config 1 None 100)
  /\ checkpoint_filename mnist_config
     = checkpoint_filename (demo_config 1 None 100)
  /\ wc_dataset (wp_config (run_params mnist_config)) = "cifar10"%string.
Proof.
  split; [discriminate|].
  destruct (names_ignore_dataset (C := demo) mnist_config
              (demo_config 1 None 100) no_files no_files
              eq_refl eq_refl eq_refl)
    as (_ & H2 & _ & H4 & _).
  split; [exact H4|exact H2].
Defined.

(** ** Further runs and command lines *)

Import MoreDemo.

(** Poisson sampling with [batch_size = mini_batch_size] is accepted. *)
Lemma poisson_accepted_demo :
  batch_size poisson_ok_config = mini_batch_size poisson_ok_config
  /\ augment poisson_ok_config = false.
Proof.
  destruct (poisson_accepted (C := demo) poisson_ok_config no_files eq_refl
              ltac:(intros e; vm_compute; discriminate))
    as (H1 & _ & H2 & _).
  split; [exact H1|exact H2].
Defined.

(** Noise 1 and a budget of 3: the epsilons logged are 1 and 2. *)
Lemma logged_epsilon_below_budget_demo :
  Forall (fun rec => exists eps, lg_epsilon rec = Some eps
                                 /\ num_ge eps 3 = false)
    (omap logged (run_trace (main (demo_config 1 (Some 3) 100) no_files))).
Proof.
  apply Forall_forall.
  exact (proj1 (logged_epsilon_below_budget (C := demo)
                  (demo_config 1 (Some 3) 100) no_files 3 eq_refl eq_refl)).
Defined.

(** The plateau run of the instance has trained 26 epochs. *)
Lemma plateau_not_before_20_demo :
  (20 <= epochs_run (run_trace (main (demo_config 1 None 100) no_files)))%nat.
Proof.
  refine (proj2 (plateau_not_before_20 (C := demo) (demo_config 1 None 100)
                   no_files _)).
  vm_compute. reflexivity.
Defined.

(** [>] on integers is irreflexive and transitive. *)
Lemma checkpoint_best_acc_is_maximum_demo :
  Forall (fun s =>
            forall j, Z.of_nat j < ck_epoch (fst (fst s)) ->
              num_gt (test_acc_at (demo_config 1 None 100) j)
                (ck_best_acc (fst (fst s))) = false)
    (omap saved (run_trace (main (demo_config 1 None 100) no_files))).
Proof.
  apply Forall_forall. intros [[st b] f] Hin.
  refine (proj1 (checkpoint_best_acc_is_maximum (C := demo)
                   (demo_config 1 None 100) no_files _ _ st b f Hin)).
  - intros x. cbn. rewrite Z.gtb_ltb. apply Z.ltb_irrefl.
  - intros x y z. cbn. rewrite !Z.gtb_ltb, !Z.ltb_lt. lia.
Defined.

(** The run stopped by the budget of 3 printed an epsilon of 3 last. *)
Lemma budget_return_sound_demo :
  exists budget eps,
    max_epsilon (demo_config 1 (Some 3) 100) = Some budget
    /\ last (omap printed_epsilon
               (run_trace (main (demo_config 1 (Some 3) 100) no_files)))
       = Some eps
    /\ num_ge eps budget = true.
Proof.
  refine (proj2 (budget_return_sound (C := demo) (demo_config 1 (Some 3) 100)
                   no_files _)).
  vm_compute. reflexivity.
Defined.

(** [--seed 7 --augment] parses and gives [main] all its parameters. *)
Lemma cli_binds_every_parameter_demo :
  parse_args ["--seed"; "7"; "--augment"]%string
  = Some (<["augment"%string := VBool true]>
            (<["seed"%string := VInt 7]> defaults))
  /\ exists cfg,
       config_of (<["augment"%string := VBool true]>
                    (<["seed"%string := VInt 7]> defaults))
       = Some cfg.
Proof.
  split; [reflexivity|].
  exact (proj2 (cli_binds_every_parameter (C := demo)
                  ["--seed"; "7"; "--augment"]%string _ eq_refl)).
Defined.

(** [--optim Adam] selects Adam. *)
Lemma cli_choices_demo :
  exists cfg,
    cli_config ["--optim"; "Adam"]%string = Some cfg
    /\ the_optimizer cfg = Adam (lr cfg).
Proof.
  destruct (cli_config (C := demo) ["--optim"; "Adam"]%string)
    as [cfg|] eqn:H; [|vm_compute in H; discriminate H].
  exists cfg. split; [reflexivity|].
  destruct (cli_choices (C := demo) _ cfg H) as (_ & _ & _ & Hopt).
  apply Hopt. vm_compute in H. injection H as <-. reflexivity.
Defined.

(** [--sample_batches] alone: Poisson sampling on, scattering off. *)
Lemma cli_switches_demo :
  exists cfg,
    cli_config ["--sample_batches"]%string = Some cfg
    /\ sample_batches cfg = true /\ use_scattering cfg = false.
Proof.
  destruct (cli_config (C := demo) ["--sample_batches"]%string)
    as [cfg|] eqn:H; [|vm_compute in H; discriminate H].
  exists cfg. split; [reflexivity|].
  destruct (cli_switches (C := demo) _ cfg H) as (_ & Hu & _ & Hs).
  split; [exact Hs|exact Hu].
Defined.

(** A batch size of [256 * 2^1300] passes the assertion of line 70 and
    overflows the division of line 147: the files are left alone. *)
Lemma main_raises_only_before_loop_demo :
  run_outcome (main huge_batch_config no_files) = Raised OverflowError
  /\ run_files (main huge_batch_config no_files) = no_files
  /\ epochs_run (run_trace (main huge_batch_config no_files)) = 0%nat.
Proof.
  split; [vm_compute; reflexivity|].
  destruct (proj2 (main_raises_only_before_loop (C := demo) huge_batch_config
                     no_files) OverflowError ltac:(vm_compute; reflexivity))
    as (_ & H1 & H2 & _).
  split; [exact H1|exact H2].
Defined.

(** [--epochs 0]: everything is built and nothing is trained. *)
Lemma epochs_bound_demo :
  run_outcome (main (demo_config 1 None 0) no_files) = Returned EndOfMain
  /\ epochs_run (run_trace (main (demo_config 1 None 0) no_files)) = 0%nat.
Proof.
  rewrite (proj2 (epochs_bound (C := demo) (demo_config 1 None 0) no_files)
             (Z.le_refl 0) eq_refl).
  split; reflexivity.
Defined.
